(** * ChemE Car motor controller (MotorController18.ino)

    A shallow embedding of the Arduino sketch that drives the car: the
    start-up sequence [setup] (calibration of the photoresistor, stir
    plate, indicator lights, voltage check) and the control loop [loop]
    (start switch, abort, end of the iodine clock reaction).

    Target conventions (Arduino Uno, AVR): [int] is 16 bits wide,
    [unsigned long] is 32 bits wide, [float] and [double] are both IEEE
    binary32.  Everything the sketch does to the outside world is recorded
    as a list of events; everything it reads from the outside world is an
    explicit input of [setup] and [loop]. *)

From Stdlib Require Import ZArith List String Bool Lia.
From Stdlib Require Import Floats.SpecFloat.
Import ListNotations.
Local Open Scope Z_scope.

(** ** Machine arithmetic *)

(** [int]: 16-bit two's complement, results wrap around. *)
Definition int_wrap (z : Z) : Z := (z + 32768) mod 65536 - 32768.

(** [unsigned long]: 32 bits, arithmetic modulo 2^32. *)
Definition ulong_wrap (z : Z) : Z := z mod 4294967296.
Definition ulong_sub (a b : Z) : Z := ulong_wrap (a - b).

(** [float]: IEEE binary32, round to nearest even. *)
Module F32.
Definition prec : Z := 24.
Definition emax : Z := 128.
Definition float := spec_float.

Definition of_Z (z : Z) : float := binary_normalize prec emax z 0 false.
Definition mul : float -> float -> float := SFmul prec emax.
Definition div : float -> float -> float := SFdiv prec emax.
Definition add : float -> float -> float := SFadd prec emax.
Definition ltb : float -> float -> bool := SFltb.
Definition eqb : float -> float -> bool := SFeqb.

(** A decimal literal [n/d] (such as 0.8 = 8/10), rounded once. *)
Definition lit (n d : Z) : float := div (of_Z n) (of_Z d).

(** The conversion [int(x)]: the fractional part is discarded.  The
    conversion of a NaN or of an infinity is undefined in C++; the model
    gives 0. *)
Definition to_int (x : float) : Z :=
  match x with
  | S754_finite s m e =>
      let mag := if 0 <=? e then Z.pos m * 2 ^ e else Z.pos m / 2 ^ (- e) in
      if s then - mag else mag
  | _ => 0
  end.
End F32.

(** ** Pins and constants of the sketch *)

Inductive level : Type := LOW | HIGH.

Inductive pin_mode : Type := INPUT | OUTPUT.

Definition level_eqb (a b : level) : bool :=
  match a, b with
  | LOW, LOW | HIGH, HIGH => true
  | _, _ => false
  end.

(* Digital Pin Configuration *)
Definition dp_spect : Z := 0.
Definition dp_batok : Z := 1.
Definition dp_pemok : Z := 2.
Definition dp_swton : Z := 4.
Definition dp_regon : Z := 8.
Definition dp_serv1 : Z := 9.
Definition dp_serv2 : Z := 10.
Definition dp_servs : Z := 11.

(* Analog Pin Configuration *)
Definition ap_rebat : Z := 0.
Definition ap_repem : Z := 1.
Definition ap_photo : Z := 2.

(* Voltage divider *)
Definition div_const : F32.float :=
  F32.div (F32.lit 47 10) (F32.add (F32.of_Z 10) (F32.lit 47 10)).

(* "OK" voltages for battery and PEM *)
Definition vbat_ok : F32.float := F32.lit 55 10.
Definition vpem_ok : F32.float := F32.of_Z 7.

(* Spectrophotometer configuration variables *)
Definition vdrop_frac : F32.float := F32.lit 8 10.
Definition stir_speed : Z := 9.
Definition setup_samples : Z := 10.

Definition update_rate : Z := 5000.
Definition debug_level : Z := 3.

(** ** Events *)

Inductive servo_id : Type := servo1 | servo2 | stirvo.

(** The text of a message, as the expression that builds it: string
    literals, [String(n)] of an integer or of a float, and [+]. *)
Inductive text : Type :=
| Lit (s : string)
| OfInt (z : Z)
| OfFloat (x : F32.float)
| Cat (a b : text).

Infix "+++" := Cat (at level 60, right associativity).

(** The functions of the sketch whose calls are observed. *)
Inductive call : Type :=
| attachAndWrite_call
| detachAndWrite_call
| debug_call (lvl : Z) (msg : text).

Inductive event : Type :=
| Call (c : call)
| SerialBegin (baud : Z)
| SerialPrintln (t : text)
| PinMode (pin : Z) (m : pin_mode)
| DigitalWrite (pin : Z) (v : level)
| Delay (ms : Z)
| ServoAttach (sv : servo_id) (pin : Z)
| ServoWrite (sv : servo_id) (angle : Z)
| ServoDetach (sv : servo_id).

Definition trace : Type := list event.

(** ** Program state *)

(** A [Servo] object of the Arduino library, as far as the sketch observes
    it: [attached()] and the last commanded angle. *)
Record Servo : Type := mkServo {
  srv_attached : bool;
  srv_angle : Z
}.

Record State : Type := mkState {
  base_light : Z;        (* Baseline light level, used as reference *)
  run_time : Z;          (* Tracks time since start of run. *)
  update_time : Z;       (* Slows update rate of some messages. *)
  run_car : bool;        (* Move car or not *)
  color_change : bool;   (* Has the iodine clock changed color? *)
  srv1 : Servo;
  srv2 : Servo;
  stir : Servo;
  pins : Z -> level      (* levels last written to the digital pins *)
}.

(** The globals as they are when [setup] starts. *)
Definition power_on : State :=
  {| base_light := 1023; run_time := 0; update_time := 0;
     run_car := false; color_change := false;
     srv1 := mkServo false 0; srv2 := mkServo false 0; stir := mkServo false 0;
     pins := fun _ => LOW |}.

Definition get_servo (sv : servo_id) (s : State) : Servo :=
  match sv with
  | servo1 => srv1 s
  | servo2 => srv2 s
  | stirvo => stir s
  end.

Definition set_servo (sv : servo_id) (x : Servo) (s : State) : State :=
  match sv with
  | servo1 => mkState (base_light s) (run_time s) (update_time s) (run_car s)
                (color_change s) x (srv2 s) (stir s) (pins s)
  | servo2 => mkState (base_light s) (run_time s) (update_time s) (run_car s)
                (color_change s) (srv1 s) x (stir s) (pins s)
  | stirvo => mkState (base_light s) (run_time s) (update_time s) (run_car s)
                (color_change s) (srv1 s) (srv2 s) x (pins s)
  end.

Definition set_base_light (v : Z) (s : State) : State :=
  mkState v (run_time s) (update_time s) (run_car s) (color_change s)
    (srv1 s) (srv2 s) (stir s) (pins s).
Definition set_run_time (v : Z) (s : State) : State :=
  mkState (base_light s) v (update_time s) (run_car s) (color_change s)
    (srv1 s) (srv2 s) (stir s) (pins s).
Definition set_update_time (v : Z) (s : State) : State :=
  mkState (base_light s) (run_time s) v (run_car s) (color_change s)
    (srv1 s) (srv2 s) (stir s) (pins s).
Definition set_run_car (v : bool) (s : State) : State :=
  mkState (base_light s) (run_time s) (update_time s) v (color_change s)
    (srv1 s) (srv2 s) (stir s) (pins s).
Definition set_color_change (v : bool) (s : State) : State :=
  mkState (base_light s) (run_time s) (update_time s) (run_car s) v
    (srv1 s) (srv2 s) (stir s) (pins s).
Definition set_pin (p : Z) (v : level) (s : State) : State :=
  mkState (base_light s) (run_time s) (update_time s) (run_car s)
    (color_change s) (srv1 s) (srv2 s) (stir s)
    (fun q => if q =? p then v else pins s q).

(** ** Commands: state passing with an event log *)

Definition Cmd (A : Type) : Type := State -> A * State * trace.

Definition ret {A} (a : A) : Cmd A := fun s => (a, s, []).

Definition bind {A B} (c : Cmd A) (k : A -> Cmd B) : Cmd B :=
  fun s =>
    let '(a, s1, t1) := c s in
    let '(b, s2, t2) := k a s1 in
    (b, s2, t1 ++ t2).

Notation "x <- c ;; k" := (bind c (fun x => k))
  (at level 61, c at next level, right associativity).
Notation "c ;; k" := (bind c (fun _ => k))
  (at level 61, right associativity).

Definition get : Cmd State := fun s => (s, s, []).
Definition modify (f : State -> State) : Cmd unit := fun s => (tt, f s, []).
Definition emit (e : event) : Cmd unit := fun s => (tt, s, [e]).
Definition when (b : bool) (c : Cmd unit) : Cmd unit := if b then c else ret tt.

Definition exec {A} (c : Cmd A) (s : State) : State * trace :=
  let '(_, s', t) := c s in (s', t).

(** Arduino and Servo library calls. *)
Definition digitalWrite (p : Z) (v : level) : Cmd unit :=
  modify (set_pin p v) ;; emit (DigitalWrite p v).

Definition pinMode (p : Z) (m : pin_mode) : Cmd unit := emit (PinMode p m).
Definition delay (ms : Z) : Cmd unit := emit (Delay ms).

Definition servo_attached (sv : servo_id) : Cmd bool :=
  s <- get ;; ret (srv_attached (get_servo sv s)).

Definition servo_attach (sv : servo_id) (p : Z) : Cmd unit :=
  s <- get ;;
  modify (set_servo sv (mkServo true (srv_angle (get_servo sv s)))) ;;
  emit (ServoAttach sv p).

Definition servo_write (sv : servo_id) (a : Z) : Cmd unit :=
  s <- get ;;
  modify (set_servo sv (mkServo (srv_attached (get_servo sv s)) a)) ;;
  emit (ServoWrite sv a).

Definition servo_detach (sv : servo_id) : Cmd unit :=
  s <- get ;;
  modify (set_servo sv (mkServo false (srv_angle (get_servo sv s)))) ;;
  emit (ServoDetach sv).

(** ** The functions of the sketch *)

(* Prints debug message *)
Definition debug (lvl : Z) (msg : text) : Cmd unit :=
  emit (Call (debug_call lvl msg)) ;;
  when ((debug_level =? lvl) || (debug_level =? 4))
    (emit (SerialPrintln (Lit "[DEBUG " +++ OfInt lvl +++ Lit "] " +++ msg))).

(* Convert millis to seconds *)
Definition getSeconds (m : Z) : F32.float :=
  F32.div (F32.of_Z m) (F32.of_Z 1000).

Definition analogToV (v : Z) : F32.float :=
  F32.div (F32.mul (F32.div (F32.of_Z v) (F32.of_Z 1023)) (F32.of_Z 5))
          div_const.

(* Attach the motors that move the car and run *)
Definition attachAndWrite : Cmd unit :=
  emit (Call attachAndWrite_call) ;;
  (* Turn on converter. *)
  digitalWrite dp_regon HIGH ;;
  a1 <- servo_attached servo1 ;;
  when (negb a1) (servo_attach servo1 dp_serv1) ;;
  a2 <- servo_attached servo2 ;;
  when (negb a2) (servo_attach servo2 dp_serv2) ;;
  (* Adjust these for steering *)
  servo_write servo1 180 ;;
  servo_write servo2 0.

(* Detach the motors that move the car and stop *)
Definition detachAndWrite : Cmd unit :=
  emit (Call detachAndWrite_call) ;;
  servo_write servo1 90 ;;
  servo_write servo2 90 ;;
  servo_detach servo1 ;;
  servo_detach servo2 ;;
  (* Turn off converter. *)
  digitalWrite dp_regon LOW.

(** *** setup *)

(** What [setup] reads: the successive values of
    [analogRead(ap_photo)] in the calibration loop (by iteration), then
    [analogRead(ap_rebat)] and [analogRead(ap_repem)]. *)
Record SetupInput : Type := mkSetupInput {
  photo_samples : nat -> Z;
  rebat_sample : Z;
  repem_sample : Z
}.

(** The body of [for(int i = 0; i < setup_samples; i++)], with [n]
    iterations left, iteration counter [i] and accumulator [sum]. *)
Fixpoint calibrate_loop (samples : nat -> Z) (n i : nat) (sum : Z) : Cmd Z :=
  match n with
  | O => ret sum
  | S n' =>
      let value := samples i in
      let sum := int_wrap (sum + value) in
      debug 4 (Lit "Read " +++ OfInt value +++ Lit " for light level.") ;;
      delay 50 ;; (* Temporal spacing *)
      calibrate_loop samples n' (S i) sum
  end.

(** Set up the spectrophotometer: [base_light = sum/setup_samples]. *)
Definition calibrate (samples : nat -> Z) : Cmd unit :=
  sum <- calibrate_loop samples (Z.to_nat setup_samples) 0%nat 0 ;;
  modify (set_base_light (int_wrap (Z.quot sum setup_samples))) ;;
  s <- get ;;
  debug 1 (Lit "Baseline light level: " +++ OfInt (base_light s)).

(* Flash lights to let us know its ready to go. *)
Fixpoint flash_lights (n : nat) : Cmd unit :=
  match n with
  | O => ret tt
  | S n' =>
      digitalWrite dp_batok LOW ;;
      digitalWrite dp_pemok LOW ;;
      delay 150 ;;
      digitalWrite dp_batok HIGH ;;
      digitalWrite dp_pemok HIGH ;;
      delay 350 ;;
      flash_lights n'
  end.

(* Show state of voltages *)
Definition show_voltages (vbat vpem : F32.float) : Cmd unit :=
  debug 4 (Lit "Battery volatage: " +++ OfFloat vbat +++ Lit "V") ;;
  debug 4 (Lit "PEM volatage: " +++ OfFloat vpem +++ Lit "V") ;;
  when (F32.ltb vbat vbat_ok)
    (digitalWrite dp_batok LOW ;;
     debug 2 (Lit "Low battery voltage: " +++ OfFloat vbat +++ Lit "V")) ;;
  when (F32.ltb vpem vpem_ok)
    (digitalWrite dp_pemok LOW ;;
     debug 2 (Lit "Low fuel cell voltage: " +++ OfFloat vpem +++ Lit "V")).

Definition setup (i : SetupInput) : Cmd unit :=
  when (0 <? debug_level) (emit (SerialBegin 9600)) ;;
  debug 4 (Lit "===== RESET =====") ;;
  (* Pin Modes *)
  pinMode dp_spect OUTPUT ;;
  pinMode dp_batok OUTPUT ;;
  pinMode dp_pemok OUTPUT ;;
  pinMode dp_swton INPUT ;;
  pinMode dp_regon OUTPUT ;;
  pinMode dp_serv1 OUTPUT ;;
  pinMode dp_serv2 OUTPUT ;;
  pinMode dp_servs OUTPUT ;;
  (* Turn off the DC/DC converter *)
  digitalWrite dp_regon LOW ;;
  (* Turn on the spectrophotometer *)
  digitalWrite dp_spect HIGH ;;
  debug 4 (Lit "Setting up spectrophotometer...") ;;
  calibrate (photo_samples i) ;;
  (* Start stirring *)
  debug 4 (Lit "Starting stirplate...") ;;
  servo_attach stirvo dp_servs ;;
  servo_write stirvo ((stir_speed - 9) * -10) ;;
  debug 4 (Lit "Spectrophotometer ready.") ;;
  flash_lights 4 ;;
  delay 500 ;;
  debug 4 (Lit "Reading voltages...") ;;
  let vbat := analogToV (rebat_sample i) in
  let vpem := analogToV (repem_sample i) in
  show_voltages vbat vpem.

(** *** loop *)

(** What one pass of [loop] reads, by call site: the switch in the [if]
    (rule 1) and in the [else if] (rule 2), the photoresistor, and
    [millis()] at the start of a run, in the test and in the assignment of
    the message timer, and at the end of a run.  A value is used only when
    its call is reached. *)
Record CycleInput : Type := mkCycleInput {
  sw_start : level;
  sw_abort : level;
  light : Z;
  ms_start : Z;
  ms_check : Z;
  ms_update : Z;
  ms_end : Z
}.

(** [int(vdrop_frac*base_light)] *)
Definition threshold (base : Z) : Z :=
  F32.to_int (F32.mul vdrop_frac (F32.of_Z base)).

(* Start switch handling *)
Definition switch_handling (i : CycleInput) : Cmd unit :=
  s <- get ;;
  if negb (run_car s) && negb (color_change s) && level_eqb (sw_start i) HIGH
  then
    modify (set_run_car true) ;;
    attachAndWrite ;;
    modify (set_run_time (ms_start i)) ;;
    s1 <- get ;;
    debug 3 (Lit "Starting run at T=" +++ OfFloat (getSeconds (run_time s1))
             +++ Lit "s")
  else if negb (color_change s) && level_eqb (sw_abort i) LOW
  then
    modify (set_run_time 0) ;;
    when (run_car s) (debug 3 (Lit "Run Aborted")) ;;
    modify (set_run_car false) ;;
    detachAndWrite
  else ret tt.

Definition light_report (i : CycleInput) (light_value : Z) : Cmd unit :=
  s <- get ;;
  when (update_rate <? ulong_sub (ms_check i) (update_time s))
    (modify (set_update_time (ms_update i)) ;;
     debug 1 (Lit "Light level: " +++ OfInt light_value +++ Lit " -~- "
              +++ OfInt (threshold (base_light s)))).

Definition endpoint_check (i : CycleInput) (light_value : Z) : Cmd unit :=
  s <- get ;;
  when (run_car s && (light_value <? threshold (base_light s)))
    (modify (set_run_car false) ;;
     modify (set_color_change true) ;;
     detachAndWrite ;;
     let cur_time := ms_end i in
     s1 <- get ;;
     debug 3 (Lit "Ending run at T=" +++ OfFloat (getSeconds cur_time)
              +++ Lit "s. Run Time is "
              +++ OfFloat (getSeconds (ulong_sub cur_time (run_time s1)))
              +++ Lit "s.") ;;
     modify (set_run_time 0)).

Definition loop (i : CycleInput) : Cmd unit :=
  switch_handling i ;;
  let light_value := light i in
  light_report i light_value ;;
  endpoint_check i light_value.

(** ** Executions *)

(** One pass of [loop]: the state it leaves and the events of that pass. *)
Definition step (s : State) (i : CycleInput) : State * trace := exec (loop i) s.

(** The passes of [loop] over a stream of inputs, one entry per cycle. *)
Fixpoint cycles (s : State) (inputs : list CycleInput) : list (State * trace) :=
  match inputs with
  | [] => []
  | i :: rest => let r := step s i in r :: cycles (fst r) rest
  end.

(** The state after the last of the passes. *)
Definition run (s : State) (inputs : list CycleInput) : State :=
  fold_left (fun s i => fst (step s i)) inputs s.

(** The state in which [loop] starts after a reset. *)
Definition boot (i : SetupInput) : State := fst (exec (setup i) power_on).
Definition boot_trace (i : SetupInput) : trace := snd (exec (setup i) power_on).

(** The state of the vehicle, read off the two flags. *)
Inductive VehicleState : Type := Idle | Running | Stopped.

Definition vehicle_state (s : State) : VehicleState :=
  if color_change s then Stopped
  else if run_car s then Running else Idle.

(** ** Observations on traces *)

Definition is_engage (e : event) : bool :=
  match e with Call attachAndWrite_call => true | _ => false end.

Definition is_disengage (e : event) : bool :=
  match e with Call detachAndWrite_call => true | _ => false end.

(** Writes to the actuators: the converter pin and the servos. *)
Definition is_actuator_write (e : event) : bool :=
  match e with
  | DigitalWrite p _ => p =? dp_regon
  | ServoAttach _ _ | ServoWrite _ _ | ServoDetach _ => true
  | _ => false
  end.

Definition is_attach (sv : servo_id) (e : event) : bool :=
  match e, sv with
  | ServoAttach servo1 _, servo1 | ServoAttach servo2 _, servo2
  | ServoAttach stirvo _, stirvo => true
  | _, _ => false
  end.

Definition count (p : event -> bool) (t : trace) : nat :=
  List.length (filter p t).

Definition engage_calls : trace -> nat := count is_engage.
Definition disengage_calls : trace -> nat := count is_disengage.

(** Drive actuation of any kind: a call of [attachAndWrite] or of
    [detachAndWrite], or a write to the converter pin or to a servo. *)
Definition is_actuation (e : event) : bool :=
  is_engage e || is_disengage e || is_actuator_write e.

Definition is_debug (lvl : Z) (msg : text -> bool) (e : event) : bool :=
  match e with
  | Call (debug_call l m) => (l =? lvl) && msg m
  | _ => false
  end.

Definition is_lit (s : string) (m : text) : bool :=
  match m with
  | Lit s' => String.eqb s s'
  | _ => false
  end.

(** The "Run Aborted" message. *)
Definition is_aborted : event -> bool := is_debug 3 (is_lit "Run Aborted").

Definition is_println (msg : text -> bool) (e : event) : bool :=
  match e with
  | SerialPrintln (_ +++ _ +++ _ +++ m) => msg m
  | _ => false
  end.

Definition is_drive_call (e : event) : bool := is_engage e || is_disengage e.

Definition starts_with (s : string) (m : text) : bool :=
  match m with
  | Lit s' +++ _ => String.eqb s s'
  | _ => false
  end.

(** The message that ends a run, at level 3. *)
Definition is_ending : event -> bool := is_debug 3 (starts_with "Ending run at T=").

(** The two low-voltage messages, as handed to [debug] at level 2. *)
Definition is_low_battery : event -> bool :=
  is_debug 2 (starts_with "Low battery voltage: ").
Definition is_low_fuel_cell : event -> bool :=
  is_debug 2 (starts_with "Low fuel cell voltage: ").

Definition is_pin_low (p : Z) (e : event) : bool :=
  match e with
  | DigitalWrite q LOW => q =? p
  | _ => false
  end.

Definition attach_count (sv : servo_id) : trace -> nat := count (is_attach sv).

Definition states_of (rs : list (State * trace)) : list VehicleState :=
  map (fun r => vehicle_state (fst r)) rs.
Definition engages_of (rs : list (State * trace)) : list nat :=
  map (fun r => engage_calls (snd r)) rs.
Definition disengages_of (rs : list (State * trace)) : list nat :=
  map (fun r => disengage_calls (snd r)) rs.

(** ** Views of the state and of the code *)

(** The two flags are never set together: [color_change] is set only
    where [run_car] is cleared, and [run_car] is set only while
    [color_change] is clear. *)
Definition flags_ok (s : State) : Prop :=
  color_change s = true -> run_car s = false.

(** Two states with the same globals and servos; the pin levels, which the
    sketch never reads back, may differ. *)
Definition same_control (a b : State) : Prop :=
  base_light a = base_light b /\ run_time a = run_time b /\
  update_time a = update_time b /\ run_car a = run_car b /\
  color_change a = color_change b /\
  srv1 a = srv1 b /\ srv2 a = srv2 b /\ stir a = stir b.

(** The value of [sum] when the calibration loop is left. *)
Fixpoint calibrate_sum (samples : nat -> Z) (n i : nat) (sum : Z) : Z :=
  match n with
  | O => sum
  | S n' => calibrate_sum samples n' (S i) (int_wrap (sum + samples i))
  end.

(** The tests [vbat < vbat_ok] and [vpem < vpem_ok] of [setup]. *)
Definition battery_low (si : SetupInput) : bool :=
  F32.ltb (analogToV (rebat_sample si)) vbat_ok.
Definition fuel_cell_low (si : SetupInput) : bool :=
  F32.ltb (analogToV (repem_sample si)) vpem_ok.

(** The message that ends a run, for the time [cur_time] of the end and
    the time [start] held in [run_time]. *)
Definition end_message (cur_time start : Z) : text :=
  Lit "Ending run at T=" +++ OfFloat (getSeconds cur_time)
  +++ Lit "s. Run Time is "
  +++ OfFloat (getSeconds (ulong_sub cur_time start))
  +++ Lit "s.".

(** ** Sample inputs *)

(** A reset in front of a photoresistor that reads [v], both rails at full
    scale. *)
Definition lit_setup (v : Z) : SetupInput := mkSetupInput (fun _ => v) 1023 1023.

(** A pass in which the switch reads [sw], the photoresistor [lv] and the
    clock [t]. *)
Definition pass (sw : level) (lv t : Z) : CycleInput :=
  mkCycleInput sw sw lv t t t t.

(** The readings [sw] and [lv] for one pass, with the clock values of [c]. *)
Definition with_readings (sw : level) (lv : Z) (c : CycleInput) : CycleInput :=
  mkCycleInput sw sw lv (ms_start c) (ms_check c) (ms_update c) (ms_end c).

(** ** Three properties as the specification words them *)

(** C2: one call of [attachAndWrite], in cycle 2, and one call of
    [detachAndWrite], in cycle 4. *)
Definition end_to_end_claim (rs : list (State * trace)) : Prop :=
  states_of rs = [Idle; Running; Running; Stopped] /\
  engages_of rs = [0; 1; 0; 0]%nat /\
  disengages_of rs = [0; 0; 0; 1]%nat.

(** C3, with the threshold taken as the real number 0.8 x baseline:
    [l < 0.8 * b] is [10 * l < 8 * b]. *)
Definition crossing_claim (s : State) (i1 i2 : CycleInput) : Prop :=
  vehicle_state s = Running ->
  8 * base_light s <= 10 * light i1 ->
  10 * light i2 < 8 * base_light s ->
  vehicle_state (fst (step (fst (step s i1)) i2)) = Stopped /\
  disengage_calls (snd (step s i1) ++ snd (step (fst (step s i1)) i2)) = 1%nat.

(** C5: the drive is engaged in the pass where the switch comes on, and
    disengaged in the following pass, not in the same one. *)
Definition next_cycle_claim (s : State) (i1 i2 : CycleInput) : Prop :=
  vehicle_state s = Idle -> sw_start i1 = HIGH ->
  light i1 < threshold (base_light s) ->
  engage_calls (snd (step s i1)) = 1%nat /\
  disengage_calls (snd (step s i1)) = 0%nat /\
  disengage_calls (snd (step (fst (step s i1)) i2)) = 1%nat.

(** ** Observations on whole sessions *)

(** The events of all the passes over [inputs], in order. *)
Definition session_trace (s : State) (inputs : list CycleInput) : trace :=
  List.concat (map snd (cycles s inputs)).

Definition is_serial_print (e : event) : bool :=
  match e with SerialPrintln _ => true | _ => false end.

(** A call of [debug] at level 3, the timing messages. *)
Definition is_timing_debug : event -> bool := is_debug 3 (fun _ => true).

Definition is_stir_event (e : event) : bool :=
  match e with
  | ServoAttach stirvo _ | ServoWrite stirvo _ | ServoDetach stirvo => true
  | _ => false
  end.

(** The time spent in [delay], in milliseconds. *)
Definition total_delay (t : trace) : Z :=
  fold_right (fun e acc => match e with Delay ms => ms + acc | _ => acc end) 0 t.

(** The drive as [run_car] wants it: converter on and both motors attached
    at their drive angles while the car runs, converter off and both
    motors detached otherwise. *)
Definition drive_matches (s : State) : Prop :=
  (run_car s = true ->
   pins s dp_regon = HIGH /\
   srv1 s = mkServo true 180 /\ srv2 s = mkServo true 0) /\
  (run_car s = false ->
   pins s dp_regon = LOW /\
   srv_attached (srv1 s) = false /\ srv_attached (srv2 s) = false).

(** The sum of the [n] samples from index [i] on, without wrap-around. *)
Fixpoint sum_samples (samples : nat -> Z) (n i : nat) : Z :=
  match n with
  | O => 0
  | S n' => samples i + sum_samples samples n' (S i)
  end.

(** Two passes that read the same switch levels and the same light level;
    the clock values are free. *)
Definition same_readings (a b : CycleInput) : Prop :=
  sw_start a = sw_start b /\ sw_abort a = sw_abort b /\ light a = light b.

(** Two states that agree on everything but the two timers. *)
Definition same_drive (a b : State) : Prop :=
  base_light a = base_light b /\ run_car a = run_car b /\
  color_change a = color_change b /\
  srv1 a = srv1 b /\ srv2 a = srv2 b /\ stir a = stir b /\ pins a = pins b.

(** A pass that neither aborts a run nor ends it, for the baseline [b]. *)
Definition keeps_running (b : Z) (i : CycleInput) : Prop :=
  sw_abort i = HIGH /\ threshold b <= light i.

(** The light-level message, handed to [debug] at level 1. *)
Definition is_light_report : event -> bool :=
  is_debug 1 (starts_with "Light level: ").

(** The value of a float as an integer number of units of 2^-149, the
    smallest step of binary32 (0 for a NaN or an infinity). *)
Definition float_scaled (x : F32.float) : Z :=
  match x with
  | S754_finite s m e =>
      let v := Z.pos m * 2 ^ (e + 149) in if s then - v else v
  | _ => 0
  end.

(** * Properties *)

Arguments threshold : simpl never.
Arguments getSeconds : simpl never.
Arguments analogToV : simpl never.
Arguments ulong_sub : simpl never.
Arguments int_wrap : simpl never.
Arguments Z.ltb : simpl never.
Arguments F32.ltb : simpl never.

Ltac unfold_cmds :=
  unfold step, exec, loop, switch_handling, light_report, endpoint_check,
    attachAndWrite, detachAndWrite, debug, digitalWrite, servo_attached,
    servo_attach, servo_write, servo_detach, bind, get, modify, emit, when,
    ret.

(** Case analysis on the tests of one pass of [loop] that are still open
    once the flags are known. *)
Ltac split_tests :=
  repeat (simpl;
          match goal with
          | |- context [if ?a <? ?b then _ else _] => destruct (a <? b) eqn:?
          | |- context [level_eqb ?a _] => is_var a; destruct a
          | |- context [if srv_attached ?x then _ else _] =>
              destruct (srv_attached x) eqn:?
          | |- context [if negb (srv_attached ?x) then _ else _] =>
              destruct (srv_attached x) eqn:?
          end);
  simpl.

(** ** States of the vehicle *)

Lemma vehicle_state_stopped s :
  vehicle_state s = Stopped <-> color_change s = true.
Proof.
  unfold vehicle_state. destruct (color_change s), (run_car s); split;
    intro H; try reflexivity; discriminate H.
Qed.

Lemma vehicle_state_running s :
  vehicle_state s = Running <-> color_change s = false /\ run_car s = true.
Proof.
  unfold vehicle_state. destruct (color_change s), (run_car s);
    intuition discriminate.
Qed.

Lemma vehicle_state_idle s :
  vehicle_state s = Idle <-> color_change s = false /\ run_car s = false.
Proof.
  unfold vehicle_state. destruct (color_change s), (run_car s);
    intuition discriminate.
Qed.

Lemma step_flags_ok s i : flags_ok s -> flags_ok (fst (step s i)).
Proof.
  unfold flags_ok. destruct s as [bl rt ut rc cc s1 s2 st ps]; simpl.
  intros H. destruct i as [sw1 sw2 lv t1 t2 t3 t4].
  destruct cc, rc; try (specialize (H eq_refl); discriminate H);
    unfold_cmds; split_tests; auto; discriminate.
Qed.

Lemma run_app s xs ys : run s (xs ++ ys) = run (run s xs) ys.
Proof. unfold run. apply fold_left_app. Qed.

Lemma run_flags_ok inputs : forall s, flags_ok s -> flags_ok (run s inputs).
Proof.
  induction inputs as [|i rest IH]; intros s H; simpl; auto.
  apply IH, step_flags_ok, H.
Qed.

(** *** The state after [setup] *)

Ltac unfold_boot :=
  cbv beta iota zeta delta
    [boot boot_trace setup bind exec when show_voltages fst snd].

Ltac split_rails si :=
  destruct (F32.ltb (analogToV (rebat_sample si)) vbat_ok) eqn:?,
           (F32.ltb (analogToV (repem_sample si)) vpem_ok) eqn:?.

Lemma boot_run_car si : run_car (boot si) = false.
Proof. unfold_boot. split_rails si; reflexivity. Qed.

Lemma boot_color_change si : color_change (boot si) = false.
Proof. unfold_boot. split_rails si; reflexivity. Qed.

Lemma boot_idle si : vehicle_state (boot si) = Idle.
Proof.
  apply vehicle_state_idle. split; [apply boot_color_change|apply boot_run_car].
Qed.

Lemma boot_flags_ok si : flags_ok (boot si).
Proof. intros _. apply boot_run_car. Qed.

Lemma session_flags_ok si inputs : flags_ok (run (boot si) inputs).
Proof. apply run_flags_ok, boot_flags_ok. Qed.

(** ** The stop is latching *)

Lemma step_stopped_latched s i :
  color_change s = true ->
  color_change (fst (step s i)) = true /\ engage_calls (snd (step s i)) = 0%nat.
Proof.
  destruct s as [bl rt ut rc cc s1 s2 st ps]; simpl. intros ->.
  destruct i as [sw1 sw2 lv t1 t2 t3 t4].
  destruct rc; unfold_cmds; split_tests; auto.
Qed.

Lemma step_stopped_quiet s i :
  color_change s = true -> run_car s = false ->
  color_change (fst (step s i)) = true /\
  run_car (fst (step s i)) = false /\
  filter is_actuation (snd (step s i)) = [].
Proof.
  destruct s as [bl rt ut rc cc s1 s2 st ps]; simpl. intros -> ->.
  destruct i as [sw1 sw2 lv t1 t2 t3 t4].
  unfold_cmds; split_tests; auto.
Qed.

Lemma cycles_stopped_quiet post : forall s,
  color_change s = true -> run_car s = false ->
  Forall (fun r => vehicle_state (fst r) = Stopped /\
                   filter is_actuation (snd r) = [])
         (cycles s post).
Proof.
  induction post as [|i rest IH]; intros s Hc Hr; simpl; constructor.
  - destruct (step_stopped_quiet s i Hc Hr) as (Hc' & _ & Hq).
    split; [apply vehicle_state_stopped, Hc'|exact Hq].
  - destruct (step_stopped_quiet s i Hc Hr) as (Hc' & Hr' & _).
    apply IH; assumption.
Qed.

(** C1 (latching invariant).  From a state in which the vehicle is
    Stopped, whatever the switch and the photoresistor read afterwards,
    every later pass of [loop] leaves the vehicle Stopped and contains no
    call of [attachAndWrite]. *)
Theorem stopped_is_latched (s : State) (post : list CycleInput) :
  vehicle_state s = Stopped ->
  Forall (fun r => vehicle_state (fst r) = Stopped /\
                   engage_calls (snd r) = 0%nat)
         (cycles s post).
Proof.
  intros H. apply vehicle_state_stopped in H. revert s H.
  induction post as [|i rest IH]; intros s H; simpl; constructor.
  - destruct (step_stopped_latched s i H) as [Hc He].
    split; [apply vehicle_state_stopped, Hc|exact He].
  - apply IH. apply (step_stopped_latched s i H).
Qed.

Lemma stopped_is_latched_witness :
  let s := run (boot (lit_setup 1000)) [pass HIGH 1000 100; pass HIGH 750 200] in
  let post := [pass LOW 1000 300; pass HIGH 1000 400; pass HIGH 100 500] in
  vehicle_state s = Stopped /\
  Forall (fun r => vehicle_state (fst r) = Stopped /\
                   engage_calls (snd r) = 0%nat)
         (cycles s post).
Proof.
  split; [vm_compute; reflexivity|].
  apply stopped_is_latched. vm_compute; reflexivity.
Defined.

(** C10 (quiescence after the stop).  In every session, a reset
    followed by passes of [loop], once the vehicle is Stopped each later
    pass stays Stopped and actuates nothing: it calls neither
    [attachAndWrite] nor [detachAndWrite] and writes neither the converter
    pin nor a motor servo. *)
Theorem stopped_is_quiescent (si : SetupInput) (pre post : list CycleInput) :
  vehicle_state (run (boot si) pre) = Stopped ->
  Forall (fun r => vehicle_state (fst r) = Stopped /\
                   filter is_actuation (snd r) = [])
         (cycles (run (boot si) pre) post).
Proof.
  intros H. apply vehicle_state_stopped in H.
  apply cycles_stopped_quiet; [exact H|].
  apply (session_flags_ok si pre), H.
Qed.

Lemma stopped_is_quiescent_witness :
  let si := lit_setup 1000 in
  let pre := [pass HIGH 1000 100; pass HIGH 750 200] in
  let post := [pass LOW 1000 300; pass HIGH 1000 400; pass HIGH 100 500] in
  vehicle_state (run (boot si) pre) = Stopped /\
  Forall (fun r => vehicle_state (fst r) = Stopped /\
                   filter is_actuation (snd r) = [])
         (cycles (run (boot si) pre) post).
Proof.
  split; [vm_compute; reflexivity|].
  apply stopped_is_quiescent. vm_compute; reflexivity.
Defined.

(** ** Abort *)

Lemma step_abort_running s i :
  vehicle_state s = Running -> sw_abort i = LOW ->
  vehicle_state (fst (step s i)) = Idle /\
  run_time (fst (step s i)) = 0 /\
  disengage_calls (snd (step s i)) = 1%nat /\
  engage_calls (snd (step s i)) = 0%nat /\
  count is_aborted (snd (step s i)) = 1%nat /\
  count (is_println (is_lit "Run Aborted")) (snd (step s i)) = 1%nat.
Proof.
  intros H Hsw. apply vehicle_state_running in H. destruct H as [Hc Hr].
  destruct s as [bl rt ut rc cc s1 s2 st ps]; simpl in *; subst.
  destruct i as [sw1 sw2 lv t1 t2 t3 t4]; simpl in *; subst.
  unfold vehicle_state. unfold_cmds; split_tests; auto 10.
Qed.

Lemma step_abort_idle s i :
  vehicle_state s = Idle -> sw_start i = LOW -> sw_abort i = LOW ->
  vehicle_state (fst (step s i)) = Idle /\
  run_time (fst (step s i)) = 0 /\
  disengage_calls (snd (step s i)) = 1%nat /\
  engage_calls (snd (step s i)) = 0%nat /\
  count is_aborted (snd (step s i)) = 0%nat /\
  count (is_println (is_lit "Run Aborted")) (snd (step s i)) = 0%nat.
Proof.
  intros H Hsw1 Hsw2. apply vehicle_state_idle in H. destruct H as [Hc Hr].
  destruct s as [bl rt ut rc cc s1 s2 st ps]; simpl in *; subst.
  destruct i as [sw1 sw2 lv t1 t2 t3 t4]; simpl in *; subst.
  unfold vehicle_state. unfold_cmds; split_tests; auto 10.
Qed.

(** C4 (abort).  In a pass where the switch reads off: from Running the
    vehicle becomes Idle, [detachAndWrite] is called exactly once, the
    "Run Aborted" message is handed to [debug] exactly once (and printed
    once, level 3 being the build's debug level) and [run_time] is reset
    to 0; from Idle the same rule fires again, with one call of
    [detachAndWrite] and no "Run Aborted" message. *)
Theorem abort_semantics (s : State) (i : CycleInput) :
  sw_abort i = LOW ->
  (vehicle_state s = Running ->
   vehicle_state (fst (step s i)) = Idle /\
   run_time (fst (step s i)) = 0 /\
   disengage_calls (snd (step s i)) = 1%nat /\
   engage_calls (snd (step s i)) = 0%nat /\
   count is_aborted (snd (step s i)) = 1%nat /\
   count (is_println (is_lit "Run Aborted")) (snd (step s i)) = 1%nat) /\
  (vehicle_state s = Idle -> sw_start i = LOW ->
   vehicle_state (fst (step s i)) = Idle /\
   run_time (fst (step s i)) = 0 /\
   disengage_calls (snd (step s i)) = 1%nat /\
   engage_calls (snd (step s i)) = 0%nat /\
   count is_aborted (snd (step s i)) = 0%nat /\
   count (is_println (is_lit "Run Aborted")) (snd (step s i)) = 0%nat).
Proof.
  intros Hsw. split.
  - intros H. apply step_abort_running; assumption.
  - intros H Hsw1. apply step_abort_idle; assumption.
Qed.

Lemma abort_semantics_witness :
  let running := run (boot (lit_setup 1000)) [pass HIGH 1000 100] in
  let idle := boot (lit_setup 1000) in
  let i := pass LOW 1000 200 in
  (vehicle_state running = Running /\
   vehicle_state (fst (step running i)) = Idle /\
   disengage_calls (snd (step running i)) = 1%nat /\
   count is_aborted (snd (step running i)) = 1%nat) /\
  (vehicle_state idle = Idle /\
   vehicle_state (fst (step idle i)) = Idle /\
   disengage_calls (snd (step idle i)) = 1%nat /\
   count is_aborted (snd (step idle i)) = 0%nat).
Proof.
  intros running idle i.
  assert (Hsw : sw_abort i = LOW) by reflexivity.
  assert (Hr : vehicle_state running = Running) by (vm_compute; reflexivity).
  assert (Hi : vehicle_state idle = Idle) by (vm_compute; reflexivity).
  destruct (abort_semantics running i Hsw) as [HR _].
  destruct (abort_semantics idle i Hsw) as [_ HI].
  destruct (HR Hr) as (R1 & _ & R2 & _ & R3 & _).
  destruct (HI Hi eq_refl) as (I1 & _ & I2 & _ & I3 & _).
  exact (conj (conj Hr (conj R1 (conj R2 R3)))
              (conj Hi (conj I1 (conj I2 I3)))).
Defined.

(** ** Calibration *)

Lemma calibrate_loop_sum samples n : forall i sum s,
  fst (fst (calibrate_loop samples n i sum s)) = calibrate_sum samples n i sum /\
  snd (fst (calibrate_loop samples n i sum s)) = s.
Proof.
  induction n as [|n IH]; intros i sum s; [split; reflexivity|].
  cbn [calibrate_loop]. unfold bind, debug, delay, emit, when, ret; simpl.
  specialize (IH (S i) (int_wrap (sum + samples i)) s).
  destruct (calibrate_loop samples n (S i) (int_wrap (sum + samples i)) s)
    as [[a s'] t]; simpl in *. exact IH.
Qed.

Lemma int_wrap_small z : -32768 <= z <= 32767 -> int_wrap z = z.
Proof.
  intros H. unfold int_wrap. rewrite Z.mod_small; lia.
Qed.

(** With every sample equal to [v] and no overflow of the 16-bit
    accumulator, the loop adds [v] once per iteration. *)
Lemma calibrate_sum_constant samples v n : forall i sum,
  (forall k, (i <= k < i + n)%nat -> samples k = v) ->
  0 <= v -> 0 <= sum -> sum + Z.of_nat n * v <= 32767 ->
  calibrate_sum samples n i sum = sum + Z.of_nat n * v.
Proof.
  induction n as [|n IH]; intros i sum Hs Hv Hsum Hmax.
  - simpl. lia.
  - cbn [calibrate_sum]. rewrite (Hs i) by lia.
    rewrite int_wrap_small by nia.
    rewrite IH; try nia.
    intros k Hk. apply Hs. lia.
Qed.

Lemma calibrate_base_light samples s :
  base_light (fst (exec (calibrate samples) s)) =
  int_wrap (Z.quot (calibrate_sum samples (Z.to_nat setup_samples) 0 0)
                   setup_samples).
Proof.
  unfold calibrate, exec, bind.
  generalize (Z.to_nat setup_samples). intros n.
  pose proof (calibrate_loop_sum samples n 0%nat 0 s) as H.
  destruct (calibrate_loop samples n 0 0 s) as [[a s'] t].
  cbn [fst snd] in H. destruct H as [-> ->]. reflexivity.
Qed.

Lemma boot_base_light si :
  base_light (boot si) =
  int_wrap (Z.quot (calibrate_sum (photo_samples si)
                      (Z.to_nat setup_samples) 0 0) setup_samples).
Proof.
  cbv -[calibrate analogToV F32.ltb vbat_ok vpem_ok Z.quot int_wrap
        calibrate_sum base_light Z.to_nat setup_samples
        photo_samples rebat_sample repem_sample].
  match goal with
  | |- context [calibrate ?f ?s] =>
      pose proof (calibrate_base_light f s) as H;
      unfold exec in H;
      destruct (calibrate f s) as [[a s1] t1]
  end.
  cbn [fst] in H. rewrite <- H.
  split_rails si; reflexivity.
Qed.

(** C8 (calibration on constant input).  When every one of the
    [setup_samples] readings of the photoresistor taken by [setup] is the
    same value [v] of the converter's range 0..1023, the baseline
    [base_light] left by [setup] is exactly [v]. *)
Theorem calibrate_constant (si : SetupInput) (v : Z) :
  0 <= v <= 1023 ->
  (forall k, (k < Z.to_nat setup_samples)%nat -> photo_samples si k = v) ->
  base_light (boot si) = v.
Proof.
  intros Hv Hs. rewrite boot_base_light.
  rewrite (calibrate_sum_constant (photo_samples si) v); try lia.
  - change (Z.of_nat (Z.to_nat setup_samples)) with 10.
    unfold setup_samples. replace (0 + 10 * v) with (v * 10) by lia.
    rewrite Z.quot_mul by lia. apply int_wrap_small. lia.
  - intros k Hk. apply Hs. lia.
  - change (Z.of_nat (Z.to_nat setup_samples)) with 10. lia.
Qed.

Lemma calibrate_constant_witness :
  0 <= 640 <= 1023 /\
  (forall k, (k < Z.to_nat setup_samples)%nat ->
             photo_samples (lit_setup 640) k = 640) /\
  base_light (boot (lit_setup 640)) = 640.
Proof.
  split; [lia|]. split; [intros k _; reflexivity|].
  apply (calibrate_constant (lit_setup 640) 640); [lia|].
  intros k _. reflexivity.
Defined.

(** ** Start, run and endpoint *)

Ltac open_step s i :=
  destruct s as [bl rt ut rc cc s1 s2 st ps];
  destruct i as [sw1 sw2 lv t1 t2 t3 t4];
  unfold vehicle_state in *; simpl in *; subst.

Lemma step_base_light s i : base_light (fst (step s i)) = base_light s.
Proof.
  open_step s i. destruct rc, cc; unfold_cmds; split_tests; reflexivity.
Qed.

Lemma run_base_light inputs : forall s, base_light (run s inputs) = base_light s.
Proof.
  induction inputs as [|i rest IH]; intros s; simpl; [reflexivity|].
  rewrite IH. apply step_base_light.
Qed.

Lemma step_running_on s i :
  vehicle_state s = Running -> sw_abort i = HIGH ->
  (light i <? threshold (base_light s)) = false ->
  vehicle_state (fst (step s i)) = Running /\
  run_time (fst (step s i)) = run_time s /\
  filter is_actuation (snd (step s i)) = [] /\
  filter is_ending (snd (step s i)) = [].
Proof.
  intros H Hsw Hlt. apply vehicle_state_running in H. destruct H as [Hc Hr].
  open_step s i. unfold_cmds; split_tests; try congruence; auto.
Qed.

Lemma step_running_endpoint s i :
  vehicle_state s = Running -> sw_abort i = HIGH ->
  (light i <? threshold (base_light s)) = true ->
  vehicle_state (fst (step s i)) = Stopped /\
  run_time (fst (step s i)) = 0 /\
  disengage_calls (snd (step s i)) = 1%nat /\
  engage_calls (snd (step s i)) = 0%nat /\
  filter is_ending (snd (step s i)) =
    [Call (debug_call 3 (end_message (ms_end i) (run_time s)))].
Proof.
  intros H Hsw Hlt. apply vehicle_state_running in H. destruct H as [Hc Hr].
  open_step s i. unfold_cmds; split_tests; try congruence; auto.
Qed.

Lemma step_idle_start s i :
  vehicle_state s = Idle -> sw_start i = HIGH ->
  (light i <? threshold (base_light s)) = false ->
  vehicle_state (fst (step s i)) = Running /\
  run_time (fst (step s i)) = ms_start i /\
  engage_calls (snd (step s i)) = 1%nat /\
  disengage_calls (snd (step s i)) = 0%nat.
Proof.
  intros H Hsw Hlt. apply vehicle_state_idle in H. destruct H as [Hc Hr].
  open_step s i. unfold_cmds; split_tests; try congruence; auto.
Qed.

Lemma step_idle_start_stop s i :
  vehicle_state s = Idle -> sw_start i = HIGH ->
  (light i <? threshold (base_light s)) = true ->
  vehicle_state (fst (step s i)) = Stopped /\
  run_car (fst (step s i)) = false /\
  filter is_drive_call (snd (step s i)) =
    [Call attachAndWrite_call; Call detachAndWrite_call] /\
  filter is_ending (snd (step s i)) =
    [Call (debug_call 3 (end_message (ms_end i) (ms_start i)))].
Proof.
  intros H Hsw Hlt. apply vehicle_state_idle in H. destruct H as [Hc Hr].
  open_step s i. unfold_cmds; split_tests; try congruence; auto.
Qed.

Lemma ulong_sub_exact a b :
  0 <= b <= a -> a < 4294967296 -> ulong_sub a b = a - b.
Proof.
  intros H1 H2. unfold ulong_sub, ulong_wrap. apply Z.mod_small. lia.
Qed.

Lemma count_app p t1 t2 : count p (t1 ++ t2) = (count p t1 + count p t2)%nat.
Proof. unfold count. rewrite filter_app, length_app. reflexivity. Qed.

Lemma quiet_no_calls t :
  filter is_actuation t = [] ->
  engage_calls t = 0%nat /\ disengage_calls t = 0%nat.
Proof.
  unfold engage_calls, disengage_calls, count.
  induction t as [|e t IH]; simpl; [auto|].
  unfold is_actuation at 1.
  destruct (is_engage e), (is_disengage e); simpl; try discriminate.
  destruct (is_actuator_write e); [discriminate|]. exact IH.
Qed.

(** With a baseline of 1001 the sketch compares with [int(0.8*1001)],
    which is 800: a reading of 800 is below 800.8 and does not end the
    run, although the switch stays on. *)
Lemma crossing_claim_counterexample :
  ~ crossing_claim (run (boot (lit_setup 1001)) [pass HIGH 1001 100])
      (pass HIGH 900 200) (pass HIGH 800 300).
Proof.
  intros H.
  destruct H as [Hs _];
    [vm_compute; reflexivity | vm_compute; discriminate
    | vm_compute; reflexivity | ].
  vm_compute in Hs. discriminate Hs.
Qed.

(** C3 (endpoint detection), amended.  In a run that is Running and whose
    switch stays on, when the reading of the photoresistor goes from at
    least [int(vdrop_frac*base_light)] in one pass to less than it in the
    next, the first pass stays Running and actuates nothing, the second
    ends Stopped; over the two passes [detachAndWrite] is called exactly
    once and [attachAndWrite] never; the one end-of-run message carries the
    seconds of [cur_time - run_time] (unsigned, so the plain difference
    when the clock has not wrapped); and [run_time] is 0 afterwards. *)
Theorem endpoint_detection (s : State) (i1 i2 : CycleInput) :
  vehicle_state s = Running ->
  sw_abort i1 = HIGH -> sw_abort i2 = HIGH ->
  threshold (base_light s) <= light i1 ->
  light i2 < threshold (base_light s) ->
  let r1 := step s i1 in
  let r2 := step (fst r1) i2 in
  vehicle_state (fst r1) = Running /\
  filter is_actuation (snd r1) = [] /\
  vehicle_state (fst r2) = Stopped /\
  disengage_calls (snd r1 ++ snd r2) = 1%nat /\
  engage_calls (snd r1 ++ snd r2) = 0%nat /\
  filter is_ending (snd r1 ++ snd r2) =
    [Call (debug_call 3 (end_message (ms_end i2) (run_time s)))] /\
  run_time (fst r2) = 0 /\
  (0 <= run_time s <= ms_end i2 -> ms_end i2 < 4294967296 ->
   ulong_sub (ms_end i2) (run_time s) = ms_end i2 - run_time s).
Proof.
  intros Hrun Hsw1 Hsw2 Hge Hlt r1 r2.
  apply Z.ltb_ge in Hge. apply Z.ltb_lt in Hlt.
  destruct (step_running_on s i1 Hrun Hsw1 Hge) as (Hst1 & Hrt1 & Hq1 & He1).
  fold r1 in Hst1, Hrt1, Hq1, He1.
  assert (Hlt' : (light i2 <? threshold (base_light (fst r1))) = true).
  { unfold r1. rewrite step_base_light. exact Hlt. }
  destruct (step_running_endpoint (fst r1) i2 Hst1 Hsw2 Hlt')
    as (Hst2 & Hrt2 & Hd2 & Hen2 & He2).
  fold r2 in Hst2, Hrt2, Hd2, Hen2, He2.
  destruct (quiet_no_calls _ Hq1) as [Hen1 Hd1].
  unfold engage_calls, disengage_calls in *.
  rewrite !count_app, filter_app, Hen1, Hd1, Hen2, Hd2, He1, He2, Hrt1.
  repeat split; auto. intros. apply ulong_sub_exact; assumption.
Qed.

Lemma endpoint_detection_witness :
  let s := run (boot (lit_setup 1001)) [pass HIGH 1001 100] in
  let i1 := pass HIGH 900 200 in
  let i2 := pass HIGH 799 300 in
  vehicle_state s = Running /\
  vehicle_state (fst (step (fst (step s i1)) i2)) = Stopped /\
  disengage_calls (snd (step s i1) ++ snd (step (fst (step s i1)) i2)) = 1%nat /\
  ulong_sub (ms_end i2) (run_time s) = 200.
Proof.
  intros s i1 i2.
  assert (H1 : vehicle_state s = Running) by (vm_compute; reflexivity).
  assert (H2 : threshold (base_light s) <= light i1)
    by (vm_compute; discriminate).
  assert (H3 : light i2 < threshold (base_light s))
    by (vm_compute; reflexivity).
  destruct (endpoint_detection s i1 i2 H1 eq_refl eq_refl H2 H3)
    as (_ & _ & Hs & Hd & _ & _ & _ & Hu).
  split; [exact H1|split; [exact Hs|split; [exact Hd|]]].
  rewrite Hu; vm_compute; [reflexivity|split; discriminate|reflexivity].
Defined.

Lemma next_cycle_claim_counterexample :
  ~ next_cycle_claim (boot (lit_setup 1000)) (pass HIGH 750 100)
      (pass HIGH 750 200).
Proof.
  intros H.
  destruct H as (_ & Hd & _);
    [vm_compute; reflexivity | reflexivity | vm_compute; reflexivity | ].
  vm_compute in Hd. discriminate Hd.
Qed.

(** C5 (start below the threshold), amended.  When the switch comes on
    while Idle in a pass whose reading is already below the threshold, the
    switch handling calls [attachAndWrite] and, later in the same pass,
    the endpoint test calls [detachAndWrite]; the pass ends Stopped, and
    the following pass actuates nothing. *)
Theorem start_below_threshold (s : State) (i1 i2 : CycleInput) :
  vehicle_state s = Idle -> sw_start i1 = HIGH ->
  light i1 < threshold (base_light s) ->
  filter is_drive_call (snd (exec (switch_handling i1) s)) =
    [Call attachAndWrite_call] /\
  filter is_drive_call (snd (step s i1)) =
    [Call attachAndWrite_call; Call detachAndWrite_call] /\
  vehicle_state (fst (step s i1)) = Stopped /\
  filter is_actuation (snd (step (fst (step s i1)) i2)) = [].
Proof.
  intros Hidle Hsw Hlt. apply Z.ltb_lt in Hlt.
  destruct (step_idle_start_stop s i1 Hidle Hsw Hlt) as (Hst & Hrc & Hcalls & _).
  split; [|split; [exact Hcalls|split; [exact Hst|]]].
  - apply vehicle_state_idle in Hidle. destruct Hidle as [Hc Hr].
    clear Hst Hrc Hcalls Hlt. open_step s i1. unfold_cmds; split_tests; reflexivity.
  - apply vehicle_state_stopped in Hst.
    apply (step_stopped_quiet _ i2 Hst Hrc).
Qed.

Lemma start_below_threshold_witness :
  let s := boot (lit_setup 1000) in
  let i1 := pass HIGH 750 100 in
  let i2 := pass HIGH 750 200 in
  vehicle_state s = Idle /\ light i1 < threshold (base_light s) /\
  filter is_drive_call (snd (step s i1)) =
    [Call attachAndWrite_call; Call detachAndWrite_call] /\
  vehicle_state (fst (step s i1)) = Stopped /\
  filter is_actuation (snd (step (fst (step s i1)) i2)) = [].
Proof.
  intros s i1 i2.
  assert (H1 : vehicle_state s = Idle) by (vm_compute; reflexivity).
  assert (H2 : light i1 < threshold (base_light s)) by (vm_compute; reflexivity).
  destruct (start_below_threshold s i1 i2 H1 eq_refl H2) as (_ & Hc & Hs & Hq).
  exact (conj H1 (conj H2 (conj Hc (conj Hs Hq)))).
Defined.

(** ** The end-to-end example *)

(** The first pass, with the switch off while Idle, already calls
    [detachAndWrite]. *)
Lemma end_to_end_claim_counterexample :
  ~ end_to_end_claim
      (cycles (boot (lit_setup 1000))
         [pass LOW 1000 0; pass HIGH 1000 100; pass HIGH 1000 200;
          pass HIGH 750 300]).
Proof.
  intros (_ & _ & H). vm_compute in H. discriminate H.
Qed.

Lemma threshold_1000 : threshold 1000 = 800.
Proof. vm_compute. reflexivity. Qed.

(** C2 (end-to-end example), amended.  After a reset whose calibration
    samples are all 1000 the baseline is 1000 and the threshold 800; on
    the switch readings off, on, on, on with the light readings 1000,
    1000, 1000, 750 the vehicle is Idle, Running, Running, Stopped after
    the four passes, [attachAndWrite] is called once, in pass 2, and
    [detachAndWrite] twice: in pass 1, by the switch-off rule that also
    fires when Idle, and in pass 4, by the endpoint.  The clock values and
    the voltage samples are arbitrary. *)
Theorem end_to_end_example (rebat repem : Z) (c1 c2 c3 c4 : CycleInput) :
  let s0 := boot (mkSetupInput (fun _ => 1000) rebat repem) in
  let rs := cycles s0 [with_readings LOW 1000 c1; with_readings HIGH 1000 c2;
                       with_readings HIGH 1000 c3; with_readings HIGH 750 c4] in
  base_light s0 = 1000 /\
  threshold (base_light s0) = 800 /\
  states_of rs = [Idle; Running; Running; Stopped] /\
  engages_of rs = [0; 1; 0; 0]%nat /\
  disengages_of rs = [1; 0; 0; 1]%nat.
Proof.
  intros s0 rs.
  assert (Hb : base_light s0 = 1000).
  { unfold s0. rewrite boot_base_light. vm_compute. reflexivity. }
  assert (H0 : vehicle_state s0 = Idle) by apply boot_idle.
  split; [exact Hb|]. split; [rewrite Hb; exact threshold_1000|].
  unfold rs, states_of, engages_of, disengages_of. cbn [cycles map].
  set (i1 := with_readings LOW 1000 c1).
  set (i2 := with_readings HIGH 1000 c2).
  set (i3 := with_readings HIGH 1000 c3).
  set (i4 := with_readings HIGH 750 c4).
  destruct (step_abort_idle s0 i1 H0 eq_refl eq_refl)
    as (S1 & _ & D1 & E1 & _).
  set (s1 := fst (step s0 i1)) in *.
  assert (B1 : base_light s1 = 1000)
    by (unfold s1; rewrite step_base_light; exact Hb).
  assert (T2 : (light i2 <? threshold (base_light s1)) = false)
    by (rewrite B1, threshold_1000; reflexivity).
  destruct (step_idle_start s1 i2 S1 eq_refl T2) as (S2 & _ & E2 & D2).
  set (s2 := fst (step s1 i2)) in *.
  assert (B2 : base_light s2 = 1000)
    by (unfold s2; rewrite step_base_light; exact B1).
  assert (T3 : (light i3 <? threshold (base_light s2)) = false)
    by (rewrite B2, threshold_1000; reflexivity).
  destruct (step_running_on s2 i3 S2 eq_refl T3) as (S3 & _ & Q3 & _).
  destruct (quiet_no_calls _ Q3) as [E3 D3].
  set (s3 := fst (step s2 i3)) in *.
  assert (B3 : base_light s3 = 1000)
    by (unfold s3; rewrite step_base_light; exact B2).
  assert (T4 : (light i4 <? threshold (base_light s3)) = true)
    by (rewrite B3, threshold_1000; reflexivity).
  destruct (step_running_endpoint s3 i4 S3 eq_refl T4)
    as (S4 & _ & D4 & E4 & _).
  rewrite S1, S2, S3, S4, E1, E2, E3, E4, D1, D2, D3, D4.
  repeat split.
Qed.

(** ** The voltage check is advisory *)

Lemma step_same_control a b i :
  same_control a b ->
  same_control (fst (step a i)) (fst (step b i)) /\
  snd (step a i) = snd (step b i).
Proof.
  intros (H1 & H2 & H3 & H4 & H5 & H6 & H7 & H8).
  destruct a as [bl rt ut rc cc s1 s2 st ps].
  destruct b as [bl' rt' ut' rc' cc' s1' s2' st' ps'].
  destruct i as [sw1 sw2 lv t1 t2 t3 t4].
  simpl in *; subst. unfold same_control.
  destruct rc', cc'; unfold_cmds; split_tests; repeat split.
Qed.

Lemma cycles_same_control inputs : forall a b,
  same_control a b ->
  states_of (cycles a inputs) = states_of (cycles b inputs) /\
  map snd (cycles a inputs) = map snd (cycles b inputs).
Proof.
  induction inputs as [|i rest IH]; intros a b H; [split; reflexivity|].
  destruct (step_same_control a b i H) as [Hs Ht].
  destruct (IH _ _ Hs) as [IH1 IH2].
  unfold states_of in *. cbn [cycles map]. rewrite IH1, IH2, Ht.
  split; [|reflexivity]. f_equal.
  destruct Hs as (_ & _ & _ & Hr & Hc & _).
  unfold vehicle_state. rewrite Hr, Hc. reflexivity.
Qed.

Lemma boot_run_time si : run_time (boot si) = 0.
Proof. unfold_boot. split_rails si; reflexivity. Qed.

Lemma boot_update_time si : update_time (boot si) = 0.
Proof. unfold_boot. split_rails si; reflexivity. Qed.

Lemma boot_srv1 si : srv1 (boot si) = mkServo false 0.
Proof. unfold_boot. split_rails si; reflexivity. Qed.

Lemma boot_srv2 si : srv2 (boot si) = mkServo false 0.
Proof. unfold_boot. split_rails si; reflexivity. Qed.

Lemma boot_stir si : stir (boot si) = mkServo true 0.
Proof. unfold_boot. split_rails si; reflexivity. Qed.

Lemma boot_same_control photo b1 p1 b2 p2 :
  same_control (boot (mkSetupInput photo b1 p1))
               (boot (mkSetupInput photo b2 p2)).
Proof.
  unfold same_control.
  rewrite !boot_base_light, !boot_run_time, !boot_update_time, !boot_run_car,
    !boot_color_change, !boot_srv1, !boot_srv2, !boot_stir.
  repeat split.
Qed.

Lemma boot_batok si :
  pins (boot si) dp_batok = if battery_low si then LOW else HIGH.
Proof. unfold battery_low. unfold_boot. split_rails si; reflexivity. Qed.

Lemma boot_pemok si :
  pins (boot si) dp_pemok = if fuel_cell_low si then LOW else HIGH.
Proof. unfold fuel_cell_low. unfold_boot. split_rails si; reflexivity. Qed.

Lemma boot_low_battery_msg si :
  count is_low_battery (boot_trace si) = if battery_low si then 1%nat else 0%nat.
Proof. unfold battery_low. unfold_boot. split_rails si; reflexivity. Qed.

Lemma boot_low_fuel_cell_msg si :
  count is_low_fuel_cell (boot_trace si) =
  if fuel_cell_low si then 1%nat else 0%nat.
Proof. unfold fuel_cell_low. unfold_boot. split_rails si; reflexivity. Qed.

Lemma step_idle_switch_on s i :
  vehicle_state s = Idle -> sw_start i = HIGH ->
  engage_calls (snd (step s i)) = 1%nat.
Proof.
  intros H Hsw. apply vehicle_state_idle in H. destruct H as [Hc Hr].
  open_step s i. unfold_cmds; split_tests; reflexivity.
Qed.

(** C6 (voltage noninterference).  Two sessions that differ only in the
    samples of the battery and of the fuel cell pass through the same
    vehicle states and produce the same events in every pass of [loop],
    the calls of [attachAndWrite] and [detachAndWrite] among them.  A low
    sample only drives the indicator pin low and hands one message to
    [debug]: the vehicle is Idle after [setup] all the same, and a pass
    with the switch on engages the drive. *)
Theorem voltage_noninterference
  (photo : nat -> Z) (b1 p1 b2 p2 : Z) (inputs : list CycleInput) :
  let si1 := mkSetupInput photo b1 p1 in
  let si2 := mkSetupInput photo b2 p2 in
  states_of (cycles (boot si1) inputs) = states_of (cycles (boot si2) inputs) /\
  map snd (cycles (boot si1) inputs) = map snd (cycles (boot si2) inputs) /\
  pins (boot si1) dp_batok = (if battery_low si1 then LOW else HIGH) /\
  pins (boot si1) dp_pemok = (if fuel_cell_low si1 then LOW else HIGH) /\
  count is_low_battery (boot_trace si1) =
    (if battery_low si1 then 1%nat else 0%nat) /\
  count is_low_fuel_cell (boot_trace si1) =
    (if fuel_cell_low si1 then 1%nat else 0%nat) /\
  vehicle_state (boot si1) = Idle /\
  (forall lv c, engage_calls (snd (step (boot si1) (with_readings HIGH lv c)))
                = 1%nat).
Proof.
  intros si1 si2.
  destruct (cycles_same_control inputs _ _ (boot_same_control photo b1 p1 b2 p2))
    as [Hs Ht].
  split; [exact Hs|]. split; [exact Ht|].
  split; [apply boot_batok|]. split; [apply boot_pemok|].
  split; [apply boot_low_battery_msg|]. split; [apply boot_low_fuel_cell_msg|].
  split; [apply boot_idle|].
  intros lv c. apply step_idle_switch_on; [apply boot_idle|reflexivity].
Qed.

(** ** The rail check *)

Lemma eqb_not_ltb x y : F32.eqb x y = true -> F32.ltb x y = false.
Proof.
  unfold F32.eqb, F32.ltb, SFeqb, SFltb.
  destruct (SFcompare x y) as [[| |]|]; intros H;
    try reflexivity; discriminate H.
Qed.

Lemma show_voltages_trace vbat vpem s :
  count (is_pin_low dp_batok) (snd (exec (show_voltages vbat vpem) s)) =
    (if F32.ltb vbat vbat_ok then 1%nat else 0%nat) /\
  count is_low_battery (snd (exec (show_voltages vbat vpem) s)) =
    (if F32.ltb vbat vbat_ok then 1%nat else 0%nat) /\
  count (is_pin_low dp_pemok) (snd (exec (show_voltages vbat vpem) s)) =
    (if F32.ltb vpem vpem_ok then 1%nat else 0%nat) /\
  count is_low_fuel_cell (snd (exec (show_voltages vbat vpem) s)) =
    (if F32.ltb vpem vpem_ok then 1%nat else 0%nat).
Proof.
  unfold show_voltages, exec, bind, when.
  destruct (F32.ltb vbat vbat_ok), (F32.ltb vpem vpem_ok);
    repeat split; reflexivity.
Qed.

(** At the debug level of the build, 3, the low-voltage messages are handed
    to [debug] but not printed. *)
Lemma boot_prints_no_voltage_warning si :
  count (is_println (starts_with "Low battery voltage: ")) (boot_trace si)
    = 0%nat /\
  count (is_println (starts_with "Low fuel cell voltage: ")) (boot_trace si)
    = 0%nat.
Proof. unfold_boot. split_rails si; split; reflexivity. Qed.

(** C7 (rail check boundary).  For every raw sample, [setup] leaves the
    indicator pin of a rail low, and hands the low-voltage message of that
    rail to [debug], exactly when the converted voltage is less than the
    rail's threshold in the float comparison of the sketch ([vbat_ok] is
    5.5, [vpem_ok] is 7); a converted voltage equal to the threshold
    neither drives the pin low nor produces the message. *)
Theorem rail_check_boundary :
  (forall si,
     (pins (boot si) dp_batok = LOW <->
      F32.ltb (analogToV (rebat_sample si)) vbat_ok = true) /\
     (count is_low_battery (boot_trace si) = 1%nat <->
      F32.ltb (analogToV (rebat_sample si)) vbat_ok = true) /\
     (pins (boot si) dp_pemok = LOW <->
      F32.ltb (analogToV (repem_sample si)) vpem_ok = true) /\
     (count is_low_fuel_cell (boot_trace si) = 1%nat <->
      F32.ltb (analogToV (repem_sample si)) vpem_ok = true)) /\
  (forall vbat vpem s,
     F32.eqb vbat vbat_ok = true ->
     count (is_pin_low dp_batok) (snd (exec (show_voltages vbat vpem) s)) = 0%nat /\
     count is_low_battery (snd (exec (show_voltages vbat vpem) s)) = 0%nat) /\
  (forall vbat vpem s,
     F32.eqb vpem vpem_ok = true ->
     count (is_pin_low dp_pemok) (snd (exec (show_voltages vbat vpem) s)) = 0%nat /\
     count is_low_fuel_cell (snd (exec (show_voltages vbat vpem) s)) = 0%nat).
Proof.
  split; [|split].
  - intros si.
    rewrite boot_batok, boot_pemok, boot_low_battery_msg, boot_low_fuel_cell_msg.
    unfold battery_low, fuel_cell_low. split_rails si;
      repeat split; intros H; try reflexivity; discriminate H.
  - intros vbat vpem s H. apply eqb_not_ltb in H.
    destruct (show_voltages_trace vbat vpem s) as (H1 & H2 & _).
    rewrite H1, H2, H. split; reflexivity.
  - intros vbat vpem s H. apply eqb_not_ltb in H.
    destruct (show_voltages_trace vbat vpem s) as (_ & _ & H1 & H2).
    rewrite H1, H2, H. split; reflexivity.
Qed.

Lemma rail_check_boundary_witness :
  F32.eqb vbat_ok vbat_ok = true /\
  F32.eqb vpem_ok vpem_ok = true /\
  count (is_pin_low dp_batok)
    (snd (exec (show_voltages vbat_ok vpem_ok) power_on)) = 0%nat /\
  count (is_pin_low dp_pemok)
    (snd (exec (show_voltages vbat_ok vpem_ok) power_on)) = 0%nat.
Proof.
  destruct rail_check_boundary as (_ & Hb & Hp).
  assert (E1 : F32.eqb vbat_ok vbat_ok = true) by (vm_compute; reflexivity).
  assert (E2 : F32.eqb vpem_ok vpem_ok = true) by (vm_compute; reflexivity).
  exact (conj E1 (conj E2 (conj (proj1 (Hb vbat_ok vpem_ok power_on E1))
                                (proj1 (Hp vbat_ok vpem_ok power_on E2))))).
Defined.

(** A test that holds of each of the first [n] naturals. *)
Lemma forall_range (P : Z -> bool) (n : nat) :
  forallb P (map Z.of_nat (seq 0 n)) = true ->
  forall v, 0 <= v < Z.of_nat n -> P v = true.
Proof.
  intros H v Hv. rewrite forallb_forall in H. apply H.
  apply in_map_iff. exists (Z.to_nat v). split; [lia|].
  apply in_seq. lia.
Qed.

(** X20 (the rail check is exact on the converter's range).  For a raw
    sample in 0..1023 the float comparison of [setup] agrees with the
    comparison of the exact voltage [v * 5/1023 * 14.7/4.7] with 5.5 V
    and with 7 V. *)
Lemma rail_check_exact v :
  0 <= v <= 1023 ->
  F32.ltb (analogToV v) vbat_ok = (v * 5 * 147 * 10 <? 55 * 1023 * 47) /\
  F32.ltb (analogToV v) vpem_ok = (v * 5 * 147 <? 7 * 1023 * 47).
Proof.
  intros Hv.
  pose (P := fun v => Bool.eqb (F32.ltb (analogToV v) vbat_ok)
                               (v * 5 * 147 * 10 <? 55 * 1023 * 47)
                      && Bool.eqb (F32.ltb (analogToV v) vpem_ok)
                                  (v * 5 * 147 <? 7 * 1023 * 47)).
  assert (H : P v = true).
  { apply (forall_range P 1024); [vm_compute; reflexivity|lia]. }
  unfold P in H. apply andb_true_iff in H. destruct H as [H1 H2].
  split; apply eqb_prop; assumption.
Qed.

(** X21 (the threshold is the integer part of 0.8 x baseline).  For a
    baseline in 0..1023 the threshold [int(vdrop_frac*base_light)] of the
    endpoint test is the integer part of eight tenths of the baseline. *)
Lemma threshold_floor b : 0 <= b <= 1023 -> threshold b = 8 * b / 10.
Proof.
  intros Hb.
  pose (P := fun b => threshold b =? 8 * b / 10).
  assert (H : P b = true).
  { apply (forall_range P 1024); [vm_compute; reflexivity|lia]. }
  unfold P in H. apply Z.eqb_eq. exact H.
Qed.

(** ** Engaging twice *)

Lemma attachAndWrite_attached s :
  srv_attached (srv1 (fst (exec attachAndWrite s))) = true /\
  srv_attached (srv2 (fst (exec attachAndWrite s))) = true.
Proof.
  destruct s as [bl rt ut rc cc [a1 g1] [a2 g2] st ps].
  unfold_cmds; simpl. destruct a1, a2; split; reflexivity.
Qed.

Lemma attachAndWrite_attach_count s :
  attach_count servo1 (snd (exec attachAndWrite s)) =
    (if srv_attached (srv1 s) then 0%nat else 1%nat) /\
  attach_count servo2 (snd (exec attachAndWrite s)) =
    (if srv_attached (srv2 s) then 0%nat else 1%nat).
Proof.
  destruct s as [bl rt ut rc cc [a1 g1] [a2 g2] st ps].
  unfold_cmds; simpl. destruct a1, a2; split; reflexivity.
Qed.

Lemma detachAndWrite_detached s :
  srv_attached (srv1 (fst (exec detachAndWrite s))) = false /\
  srv_attached (srv2 (fst (exec detachAndWrite s))) = false.
Proof.
  destruct s as [bl rt ut rc cc [a1 g1] [a2 g2] st ps].
  unfold_cmds; simpl. split; reflexivity.
Qed.

(** C9 (engaging twice).  Of two calls of [attachAndWrite] in a row the
    second attaches no servo; together the two calls attach each motor
    servo once when it was detached before (as after [detachAndWrite]) and
    not at all when it was attached already. *)
Theorem engage_idempotent (s : State) :
  let r1 := exec attachAndWrite s in
  let r2 := exec attachAndWrite (fst r1) in
  attach_count servo1 (snd r2) = 0%nat /\
  attach_count servo2 (snd r2) = 0%nat /\
  attach_count servo1 (snd r1 ++ snd r2) =
    (if srv_attached (srv1 s) then 0%nat else 1%nat) /\
  attach_count servo2 (snd r1 ++ snd r2) =
    (if srv_attached (srv2 s) then 0%nat else 1%nat) /\
  (let d := fst (exec detachAndWrite s) in
   let e1 := exec attachAndWrite d in
   let e2 := exec attachAndWrite (fst e1) in
   attach_count servo1 (snd e1 ++ snd e2) = 1%nat /\
   attach_count servo2 (snd e1 ++ snd e2) = 1%nat).
Proof.
  assert (Htwice : forall x,
    attach_count servo1 (snd (exec attachAndWrite (fst (exec attachAndWrite x))))
      = 0%nat /\
    attach_count servo2 (snd (exec attachAndWrite (fst (exec attachAndWrite x))))
      = 0%nat).
  { intros x. destruct (attachAndWrite_attached x) as [A1 A2].
    destruct (attachAndWrite_attach_count (fst (exec attachAndWrite x)))
      as [C1 C2].
    rewrite C1, C2, A1, A2. split; reflexivity. }
  assert (Hboth : forall x,
    attach_count servo1 (snd (exec attachAndWrite x) ++
        snd (exec attachAndWrite (fst (exec attachAndWrite x))))
      = (if srv_attached (srv1 x) then 0%nat else 1%nat) /\
    attach_count servo2 (snd (exec attachAndWrite x) ++
        snd (exec attachAndWrite (fst (exec attachAndWrite x))))
      = (if srv_attached (srv2 x) then 0%nat else 1%nat)).
  { intros x. destruct (Htwice x) as [T1 T2].
    destruct (attachAndWrite_attach_count x) as [C1 C2].
    unfold attach_count in *. rewrite !count_app, T1, T2, C1, C2.
    split; apply Nat.add_0_r. }
  intros r1 r2. destruct (Htwice s) as [T1 T2]. destruct (Hboth s) as [B1 B2].
  split; [exact T1|]. split; [exact T2|].
  split; [exact B1|]. split; [exact B2|].
  intros d e1 e2. destruct (Hboth d) as [D1 D2].
  destruct (detachAndWrite_detached s) as [F1 F2]. fold d in F1, F2.
  rewrite F1 in D1. rewrite F2 in D2. split; assumption.
Qed.

(** * Further properties of the sketch *)

(** ** Sessions *)

Lemma session_trace_cons s i rest :
  session_trace s (i :: rest) =
  snd (step s i) ++ session_trace (fst (step s i)) rest.
Proof. reflexivity. Qed.

Lemma session_trace_app xs : forall s ys,
  session_trace s (xs ++ ys) =
  session_trace s xs ++ session_trace (run s xs) ys.
Proof.
  induction xs as [|i rest IH]; intros s ys; [reflexivity|].
  cbn [app]. rewrite !session_trace_cons, IH, app_assoc. reflexivity.
Qed.

Lemma run_cons s i rest : run s (i :: rest) = run (fst (step s i)) rest.
Proof. reflexivity. Qed.

(** ** The start of a run *)

(** X1 (start of a run).  From Idle, a pass in which the switch reads on
    and the light is not below the threshold leaves the vehicle Running,
    calls [attachAndWrite] exactly once and [detachAndWrite] not at all,
    and records the time of the start in [run_time]. *)
Theorem start_of_run (s : State) (i : CycleInput) :
  vehicle_state s = Idle -> sw_start i = HIGH ->
  threshold (base_light s) <= light i ->
  vehicle_state (fst (step s i)) = Running /\
  run_time (fst (step s i)) = ms_start i /\
  engage_calls (snd (step s i)) = 1%nat /\
  disengage_calls (snd (step s i)) = 0%nat.
Proof.
  intros H Hsw Hge. apply Z.ltb_ge in Hge.
  exact (step_idle_start s i H Hsw Hge).
Qed.

Lemma start_of_run_witness :
  let s := boot (lit_setup 1000) in
  let i := pass HIGH 900 1234 in
  vehicle_state s = Idle /\
  vehicle_state (fst (step s i)) = Running /\
  run_time (fst (step s i)) = 1234 /\
  engage_calls (snd (step s i)) = 1%nat.
Proof.
  intros s i.
  assert (H1 : vehicle_state s = Idle) by (vm_compute; reflexivity).
  assert (H2 : threshold (base_light s) <= light i)
    by (vm_compute; discriminate).
  destruct (start_of_run s i H1 eq_refl H2) as (A & B & C & _).
  exact (conj H1 (conj A (conj B C))).
Defined.

(** ** The drive follows [run_car] *)

Lemma boot_regon si : pins (boot si) dp_regon = LOW.
Proof. unfold_boot. split_rails si; reflexivity. Qed.

Lemma boot_drive_matches si : drive_matches (boot si).
Proof.
  split; intros H.
  - rewrite boot_run_car in H. discriminate H.
  - rewrite boot_regon, boot_srv1, boot_srv2. repeat split.
Qed.

Lemma step_drive_matches s i :
  drive_matches s -> drive_matches (fst (step s i)).
Proof.
  unfold drive_matches.
  destruct s as [bl rt ut rc cc [a1 g1] [a2 g2] st ps].
  destruct i as [sw1 sw2 lv t1 t2 t3 t4]. simpl.
  intros [Ht Hf]. destruct rc.
  - destruct (Ht eq_refl) as (P & E1 & E2).
    injection E1 as -> ->. injection E2 as -> ->.
    destruct cc; unfold_cmds; split_tests;
      (split; intros H; [try discriminate H|try discriminate H]);
      repeat split; auto.
  - destruct (Hf eq_refl) as (P & E1 & E2). simpl in E1, E2. subst a1 a2.
    destruct cc; unfold_cmds; split_tests;
      (split; intros H; [try discriminate H|try discriminate H]);
      repeat split; auto.
Qed.

(** X2 (the drive follows [run_car]).  After [setup] and any number of
    passes of [loop], the converter pin is high and both motor servos are
    attached at their drive angles (180 and 0) when [run_car] is set, and
    the converter pin is low and both motor servos are detached when it is
    clear. *)
Theorem drive_follows_run_car (si : SetupInput) (inputs : list CycleInput) :
  drive_matches (run (boot si) inputs).
Proof.
  assert (H : forall xs s, drive_matches s -> drive_matches (run s xs)).
  { induction xs as [|i rest IH]; intros s Hs; [exact Hs|].
    rewrite run_cons. apply IH, step_drive_matches, Hs. }
  apply H, boot_drive_matches.
Qed.

(** ** The run timer *)

Lemma step_timer_idle s i :
  (run_car s = false -> run_time s = 0) ->
  run_car (fst (step s i)) = false -> run_time (fst (step s i)) = 0.
Proof.
  destruct s as [bl rt ut rc cc s1 s2 st ps].
  destruct i as [sw1 sw2 lv t1 t2 t3 t4]. simpl. intros H.
  destruct rc, cc; unfold_cmds; split_tests; intros H';
    try discriminate H'; auto.
Qed.

(** X3 (the run timer is cleared outside a run).  After [setup] and any
    number of passes of [loop], [run_time] is 0 whenever [run_car] is
    clear, that is whenever the vehicle is Idle or Stopped. *)
Theorem run_time_cleared (si : SetupInput) (inputs : list CycleInput) :
  run_car (run (boot si) inputs) = false ->
  run_time (run (boot si) inputs) = 0.
Proof.
  assert (H : forall xs s, (run_car s = false -> run_time s = 0) ->
                           run_car (run s xs) = false -> run_time (run s xs) = 0).
  { induction xs as [|i rest IH]; intros s Hs; [exact Hs|].
    rewrite run_cons. apply IH. apply step_timer_idle, Hs. }
  apply H. intros _. apply boot_run_time.
Qed.

Lemma run_time_cleared_witness :
  let s := run (boot (lit_setup 1000))
             [pass HIGH 1000 100; pass HIGH 1000 200; pass LOW 1000 300] in
  run_car s = false /\ run_time s = 0.
Proof.
  intros s.
  assert (H : run_car s = false) by (vm_compute; reflexivity).
  exact (conj H (run_time_cleared _ _ H)).
Defined.

(** ** The stir plate *)

Lemma step_stir s i :
  stir (fst (step s i)) = stir s /\
  filter is_stir_event (snd (step s i)) = [].
Proof.
  destruct s as [bl rt ut rc cc s1 s2 st ps].
  destruct i as [sw1 sw2 lv t1 t2 t3 t4].
  destruct rc, cc; unfold_cmds; split_tests; split; reflexivity.
Qed.

(** X4 (the stir plate runs for the whole session).  [setup] leaves the
    stirring servo attached at angle 0, the angle of full speed, and no
    pass of [loop] attaches, writes or detaches it. *)
Theorem stir_plate_untouched (si : SetupInput) (inputs : list CycleInput) :
  stir (run (boot si) inputs) = mkServo true 0 /\
  filter is_stir_event (session_trace (boot si) inputs) = [].
Proof.
  assert (H : forall xs s,
             stir (run s xs) = stir s /\
             filter is_stir_event (session_trace s xs) = []).
  { induction xs as [|i rest IH]; intros s; [split; reflexivity|].
    rewrite run_cons, session_trace_cons, filter_app.
    destruct (step_stir s i) as [E1 E2].
    destruct (IH (fst (step s i))) as [I1 I2].
    rewrite I1, I2, E1, E2. split; reflexivity. }
  destruct (H inputs (boot si)) as [H1 H2].
  rewrite H1, H2, boot_stir. split; reflexivity.
Qed.

(** ** What [loop] leaves alone *)

Lemma step_pins_other s i p :
  p <> dp_regon -> pins (fst (step s i)) p = pins s p.
Proof.
  intros Hp. apply Z.eqb_neq in Hp. unfold dp_regon in Hp.
  destruct s as [bl rt ut rc cc s1 s2 st ps].
  destruct i as [sw1 sw2 lv t1 t2 t3 t4].
  destruct rc, cc; unfold_cmds; split_tests; unfold dp_regon;
    rewrite ?Hp; reflexivity.
Qed.

Lemma run_pins_other xs p : forall s,
  p <> dp_regon -> pins (run s xs) p = pins s p.
Proof.
  induction xs as [|i rest IH]; intros s Hp; [reflexivity|].
  rewrite run_cons, IH by exact Hp. apply step_pins_other, Hp.
Qed.

Lemma boot_spect si : pins (boot si) dp_spect = HIGH.
Proof. unfold_boot. split_rails si; reflexivity. Qed.

(** X5 (the baseline and the indicator lights are fixed by [setup]).
    However many passes of [loop] follow, [base_light] keeps the value
    that [setup] computed, the spectrophotometer light stays on, and the
    two voltage indicator pins keep the level [setup] gave them. *)
Theorem loop_keeps_setup_results (si : SetupInput) (inputs : list CycleInput) :
  base_light (run (boot si) inputs) = base_light (boot si) /\
  pins (run (boot si) inputs) dp_spect = HIGH /\
  pins (run (boot si) inputs) dp_batok = pins (boot si) dp_batok /\
  pins (run (boot si) inputs) dp_pemok = pins (boot si) dp_pemok.
Proof.
  rewrite run_base_light, !run_pins_other by discriminate.
  rewrite boot_spect. repeat split.
Qed.

(** ** Calibration is a truncated mean *)

Lemma sum_samples_bounds samples lo hi n : forall i,
  (forall k, (i <= k < i + n)%nat -> lo <= samples k <= hi) ->
  Z.of_nat n * lo <= sum_samples samples n i <= Z.of_nat n * hi.
Proof.
  induction n as [|n IH]; intros i H; [simpl; lia|].
  cbn [sum_samples].
  assert (H0 : lo <= samples i <= hi) by (apply H; lia).
  assert (H1 : Z.of_nat n * lo <= sum_samples samples n (S i) <= Z.of_nat n * hi)
    by (apply IH; intros k Hk; apply H; lia).
  lia.
Qed.

Lemma calibrate_sum_exact samples n : forall i acc,
  (forall k, (i <= k < i + n)%nat -> 0 <= samples k <= 1023) ->
  0 <= acc -> acc + Z.of_nat n * 1023 <= 32767 ->
  calibrate_sum samples n i acc = acc + sum_samples samples n i.
Proof.
  induction n as [|n IH]; intros i acc H Hacc Hmax.
  - simpl. lia.
  - cbn [calibrate_sum sum_samples].
    assert (H0 : 0 <= samples i <= 1023) by (apply H; lia).
    rewrite int_wrap_small by lia.
    rewrite IH; try lia.
    intros k Hk. apply H. lia.
Qed.

(** X6 (calibration is the truncated mean).  When the [setup_samples]
    readings taken by [setup] lie in the converter's range 0..1023, the
    16-bit sum does not overflow, [base_light] is the sum of the readings
    divided by [setup_samples] with the remainder dropped, and it lies
    between any two bounds that hold of all the readings. *)
Theorem calibrate_mean (si : SetupInput) (lo hi : Z) :
  (forall k, (k < Z.to_nat setup_samples)%nat ->
             0 <= photo_samples si k <= 1023) ->
  (forall k, (k < Z.to_nat setup_samples)%nat ->
             lo <= photo_samples si k <= hi) ->
  base_light (boot si) =
    sum_samples (photo_samples si) (Z.to_nat setup_samples) 0 / setup_samples /\
  lo <= base_light (boot si) <= hi.
Proof.
  intros Hr Hb. rewrite boot_base_light.
  rewrite (calibrate_sum_exact (photo_samples si)); try lia;
    [|intros k Hk; apply Hr; lia
     |change (Z.of_nat (Z.to_nat setup_samples)) with 10; lia].
  set (n := Z.to_nat setup_samples) in *.
  assert (B1 : Z.of_nat n * 0 <= sum_samples (photo_samples si) n 0
               <= Z.of_nat n * 1023)
    by (apply sum_samples_bounds; intros k Hk; apply Hr; lia).
  assert (B2 : Z.of_nat n * lo <= sum_samples (photo_samples si) n 0
               <= Z.of_nat n * hi)
    by (apply sum_samples_bounds; intros k Hk; apply Hb; lia).
  change (Z.of_nat n) with 10 in B1, B2. unfold setup_samples.
  set (sm := sum_samples (photo_samples si) n 0) in *.
  cbn [Z.add]. rewrite Z.quot_div_nonneg by lia.
  assert (D1 : 0 <= sm / 10) by (apply Z.div_pos; lia).
  assert (D2 : sm / 10 <= 1023) by (apply Z.div_le_upper_bound; lia).
  rewrite int_wrap_small by lia.
  split; [reflexivity|]. split.
  - apply Z.div_le_lower_bound; lia.
  - apply Z.div_le_upper_bound; lia.
Qed.

Lemma calibrate_mean_witness :
  let si := mkSetupInput (fun k => 990 + Z.of_nat k) 1023 1023 in
  base_light (boot si) = 994 /\ 990 <= base_light (boot si) <= 999.
Proof.
  intros si.
  assert (Hr : forall k, (k < Z.to_nat setup_samples)%nat ->
                         0 <= photo_samples si k <= 1023).
  { intros k Hk. change (Z.to_nat setup_samples) with 10%nat in Hk.
    unfold si, photo_samples. lia. }
  assert (Hb : forall k, (k < Z.to_nat setup_samples)%nat ->
                         990 <= photo_samples si k <= 999).
  { intros k Hk. change (Z.to_nat setup_samples) with 10%nat in Hk.
    unfold si, photo_samples. lia. }
  destruct (calibrate_mean si 990 999 Hr Hb) as [E B].
  split; [rewrite E; vm_compute; reflexivity|exact B].
Defined.

(** ** Ending a run *)

Lemma step_ending_count s i :
  flags_ok s ->
  count is_ending (snd (step s i)) =
  if color_change s then 0%nat
  else if color_change (fst (step s i)) then 1%nat else 0%nat.
Proof.
  unfold flags_ok. destruct s as [bl rt ut rc cc s1 s2 st ps].
  destruct i as [sw1 sw2 lv t1 t2 t3 t4]. simpl. intros H.
  destruct cc, rc; try (specialize (H eq_refl); discriminate H);
    unfold_cmds; split_tests; reflexivity.
Qed.

Lemma session_ending_count xs : forall s,
  flags_ok s ->
  (count is_ending (session_trace s xs) <=
   (if color_change s then 0 else 1))%nat.
Proof.
  induction xs as [|i rest IH]; intros s Hs.
  - cbn. destruct (color_change s); lia.
  - rewrite session_trace_cons, count_app, (step_ending_count s i Hs).
    pose proof (IH _ (step_flags_ok s i Hs)) as H.
    pose proof (step_stopped_latched s i) as L.
    destruct (color_change s).
    + destruct (L eq_refl) as [L1 _]. rewrite L1 in H. lia.
    + destruct (color_change (fst (step s i))); lia.
Qed.

(** X7 (a session ends at most one run).  In the passes of [loop] that
    follow [setup], however long the input stream, the end-of-run message
    is handed to [debug] at most once. *)
Theorem at_most_one_ending (si : SetupInput) (inputs : list CycleInput) :
  (count is_ending (session_trace (boot si) inputs) <= 1)%nat.
Proof.
  pose proof (session_ending_count inputs (boot si) (boot_flags_ok si)) as H.
  rewrite boot_color_change in H. exact H.
Qed.

(** X8 (the stop has one cause).  A pass that takes the vehicle from Idle
    or Running to Stopped read a light level below the threshold, called
    [detachAndWrite] exactly once, and handed exactly one end-of-run
    message to [debug]. *)
Theorem stop_only_on_endpoint (s : State) (i : CycleInput) :
  vehicle_state s <> Stopped ->
  vehicle_state (fst (step s i)) = Stopped ->
  light i < threshold (base_light s) /\
  disengage_calls (snd (step s i)) = 1%nat /\
  count is_ending (snd (step s i)) = 1%nat.
Proof.
  unfold vehicle_state.
  destruct s as [bl rt ut rc cc s1 s2 st ps].
  destruct i as [sw1 sw2 lv t1 t2 t3 t4]. simpl.
  destruct cc; [intros H; exfalso; apply H; reflexivity|]. intros _.
  destruct rc; unfold_cmds; split_tests; intros H; try discriminate H;
    (split; [apply Z.ltb_lt; assumption|split; reflexivity]).
Qed.

Lemma stop_only_on_endpoint_witness :
  let s := run (boot (lit_setup 1000)) [pass HIGH 1000 100] in
  let i := pass HIGH 640 200 in
  vehicle_state s <> Stopped /\
  vehicle_state (fst (step s i)) = Stopped /\
  light i < threshold (base_light s) /\
  disengage_calls (snd (step s i)) = 1%nat.
Proof.
  intros s i.
  assert (H1 : vehicle_state s <> Stopped) by (vm_compute; discriminate).
  assert (H2 : vehicle_state (fst (step s i)) = Stopped)
    by (vm_compute; reflexivity).
  destruct (stop_only_on_endpoint s i H1 H2) as (A & B & _).
  exact (conj H1 (conj H2 (conj A B))).
Defined.

Lemma step_engage_count s i :
  engage_calls (snd (step s i)) =
  if negb (run_car s) && negb (color_change s) && level_eqb (sw_start i) HIGH
  then 1%nat else 0%nat.
Proof.
  destruct s as [bl rt ut rc cc s1 s2 st ps].
  destruct i as [sw1 sw2 lv t1 t2 t3 t4].
  destruct cc, rc; unfold_cmds; split_tests; reflexivity.
Qed.

(** X9 (engaging needs an idle vehicle and the switch).  A pass of [loop]
    calls [attachAndWrite] at most once, and it does so exactly when the
    vehicle is Idle and the switch reads on in the first test: never while
    Running, never once Stopped. *)
Theorem engage_only_from_idle (s : State) (i : CycleInput) :
  (engage_calls (snd (step s i)) <= 1)%nat /\
  (engage_calls (snd (step s i)) = 1%nat <->
   vehicle_state s = Idle /\ sw_start i = HIGH).
Proof.
  rewrite step_engage_count. unfold vehicle_state.
  destruct (run_car s), (color_change s), (sw_start i); simpl;
    (split; [lia|split; [intros H; try discriminate H; split; reflexivity
                        |intros [H1 H2]; try discriminate H1;
                         try discriminate H2; reflexivity]]).
Qed.

(** ** The timers are for messages only *)

Lemma step_clock_free a b i j :
  same_drive a b -> same_readings i j ->
  same_drive (fst (step a i)) (fst (step b j)) /\
  vehicle_state (fst (step a i)) = vehicle_state (fst (step b j)) /\
  filter is_actuation (snd (step a i)) = filter is_actuation (snd (step b j)).
Proof.
  intros (H1 & H2 & H3 & H4 & H5 & H6 & H7) (R1 & R2 & R3).
  destruct a as [bl rt ut rc cc s1 s2 st ps].
  destruct b as [bl' rt' ut' rc' cc' s1' s2' st' ps'].
  destruct i as [sw1 sw2 lv t1 t2 t3 t4].
  destruct j as [sw1' sw2' lv' t1' t2' t3' t4'].
  simpl in *; subst. unfold same_drive, vehicle_state.
  destruct rc', cc'; unfold_cmds; split_tests; try discriminate;
    repeat split.
Qed.

(** X10 (the clock does not steer the car).  Two input streams that read
    the same switch and light levels pass by pass, whatever [millis()]
    returns in either, take the vehicle through the same states and
    produce the same actuation events in every pass. *)
Theorem clock_does_not_steer (s : State) (xs ys : list CycleInput) :
  Forall2 same_readings xs ys ->
  states_of (cycles s xs) = states_of (cycles s ys) /\
  map (fun r => filter is_actuation (snd r)) (cycles s xs) =
  map (fun r => filter is_actuation (snd r)) (cycles s ys).
Proof.
  intros H.
  assert (G : forall a b, same_drive a b ->
    states_of (cycles a xs) = states_of (cycles b ys) /\
    map (fun r => filter is_actuation (snd r)) (cycles a xs) =
    map (fun r => filter is_actuation (snd r)) (cycles b ys)).
  { induction H as [|i j xs ys Hij Hrest IH]; intros a b Hab;
      [split; reflexivity|].
    destruct (step_clock_free a b i j Hab Hij) as (Hs & Hv & Ht).
    destruct (IH _ _ Hs) as [I1 I2].
    unfold states_of in *. cbn [cycles map].
    split; (f_equal; [assumption|assumption]). }
  apply G. repeat split.
Qed.

Lemma clock_does_not_steer_witness :
  let s := boot (lit_setup 1000) in
  let xs := [pass HIGH 1000 100; pass HIGH 700 200] in
  let ys := [mkCycleInput HIGH HIGH 1000 7 9000 9001 12;
             mkCycleInput HIGH HIGH 700 4294967295 3 5 1] in
  Forall2 same_readings xs ys /\
  states_of (cycles s xs) = states_of (cycles s ys).
Proof.
  intros s xs ys.
  assert (H : Forall2 same_readings xs ys)
    by (repeat constructor).
  exact (conj H (proj1 (clock_does_not_steer s xs ys H))).
Defined.

(** ** What reaches the serial port *)

Lemma step_serial s i :
  count is_serial_print (snd (step s i)) =
  count is_timing_debug (snd (step s i)).
Proof.
  destruct s as [bl rt ut rc cc s1 s2 st ps].
  destruct i as [sw1 sw2 lv t1 t2 t3 t4].
  destruct rc, cc; unfold_cmds; split_tests; reflexivity.
Qed.

Lemma boot_serial si : count is_serial_print (boot_trace si) = 0%nat.
Proof. unfold_boot. split_rails si; reflexivity. Qed.

(** X11 (only the timing messages are printed).  With the debug level of
    the sketch, 3, [setup] prints nothing on the serial port, and the
    passes of [loop] print exactly one line per call of [debug] at level
    3 (start, abort and end of a run): the light and voltage messages are
    built but never printed. *)
Theorem only_timing_is_printed (si : SetupInput) (inputs : list CycleInput) :
  count is_serial_print (boot_trace si) = 0%nat /\
  count is_serial_print (session_trace (boot si) inputs) =
  count is_timing_debug (session_trace (boot si) inputs).
Proof.
  split; [apply boot_serial|].
  generalize (boot si). induction inputs as [|i rest IH]; intros s;
    [reflexivity|].
  rewrite session_trace_cons, !count_app, step_serial, IH. reflexivity.
Qed.

(** ** What [setup] does to the car *)

(** X12 (the car cannot move during [setup]).  Whatever the sensors
    read, the only actuation in [setup] is switching the converter off and
    starting the stirring servo at angle 0: [attachAndWrite] is not called
    and no motor servo is attached or written. *)
Theorem setup_actuation (si : SetupInput) :
  filter is_actuation (boot_trace si) =
  [DigitalWrite dp_regon LOW; ServoAttach stirvo dp_servs; ServoWrite stirvo 0].
Proof. unfold_boot. split_rails si; reflexivity. Qed.

(** X13 (the length of [setup]).  Whatever the sensors read, [setup]
    spends 3000 ms in [delay]: 10 calibration samples 50 ms apart, 4
    flashes of 150 + 350 ms and a pause of 500 ms. *)
Theorem setup_delay (si : SetupInput) : total_delay (boot_trace si) = 3000.
Proof. unfold_boot. split_rails si; reflexivity. Qed.

(** ** A complete run *)

Lemma step_idle_start_no_ending s i :
  vehicle_state s = Idle -> sw_start i = HIGH ->
  (light i <? threshold (base_light s)) = false ->
  filter is_ending (snd (step s i)) = [].
Proof.
  intros H Hsw Hlt. apply vehicle_state_idle in H. destruct H as [Hc Hr].
  open_step s i. unfold_cmds; split_tests; try congruence; auto.
Qed.

Lemma running_stays mid : forall s,
  vehicle_state s = Running ->
  Forall (keeps_running (base_light s)) mid ->
  vehicle_state (run s mid) = Running /\
  run_time (run s mid) = run_time s /\
  filter is_actuation (session_trace s mid) = [] /\
  filter is_ending (session_trace s mid) = [].
Proof.
  induction mid as [|i rest IH]; intros s Hs Hk; [repeat split; assumption|].
  inversion Hk as [|? ? [Hsw Hge] Hrest]; subst.
  apply Z.ltb_ge in Hge.
  destruct (step_running_on s i Hs Hsw Hge) as (S1 & T1 & Q1 & E1).
  rewrite <- (step_base_light s i) in Hrest.
  destruct (IH _ S1 Hrest) as (S2 & T2 & Q2 & E2).
  rewrite run_cons, session_trace_cons, !filter_app, Q1, Q2, E1, E2, T2, T1.
  repeat split; assumption.
Qed.

(** X14 (a complete run).  From Idle, a pass that starts a run, then any
    number of passes with the switch on and the light not below the
    threshold, then a pass with the switch on and the light below it: the
    vehicle ends Stopped, [attachAndWrite] and [detachAndWrite] are each
    called exactly once in the whole run, and the one end-of-run message
    reports the time from the [millis()] of the start to the [millis()] of
    the end. *)
Theorem complete_run (s : State) (i0 iend : CycleInput) (mid : list CycleInput) :
  vehicle_state s = Idle -> sw_start i0 = HIGH ->
  threshold (base_light s) <= light i0 ->
  Forall (keeps_running (base_light s)) mid ->
  sw_abort iend = HIGH -> light iend < threshold (base_light s) ->
  let inputs := i0 :: mid ++ [iend] in
  vehicle_state (run s inputs) = Stopped /\
  engage_calls (session_trace s inputs) = 1%nat /\
  disengage_calls (session_trace s inputs) = 1%nat /\
  filter is_ending (session_trace s inputs) =
    [Call (debug_call 3 (end_message (ms_end iend) (ms_start i0)))].
Proof.
  intros Hidle Hsw0 Hge0 Hmid Hswe Hlte inputs. unfold inputs.
  apply Z.ltb_ge in Hge0. apply Z.ltb_lt in Hlte.
  destruct (step_idle_start s i0 Hidle Hsw0 Hge0) as (S1 & T1 & E1 & D1).
  pose proof (step_idle_start_no_ending s i0 Hidle Hsw0 Hge0) as N1.
  set (s1 := fst (step s i0)) in *.
  assert (B1 : base_light s1 = base_light s) by apply step_base_light.
  rewrite <- B1 in Hmid, Hlte.
  destruct (running_stays mid s1 S1 Hmid) as (S2 & T2 & Q2 & N2).
  destruct (quiet_no_calls _ Q2) as [E2 D2].
  set (s2 := run s1 mid) in *.
  assert (B2 : base_light s2 = base_light s1) by apply run_base_light.
  rewrite <- B2 in Hlte.
  destruct (step_running_endpoint s2 iend S2 Hswe Hlte)
    as (S3 & _ & D3 & E3 & N3).
  rewrite run_cons, run_app, session_trace_cons, session_trace_app.
  fold s1. fold s2.
  change (run s2 [iend]) with (fst (step s2 iend)).
  change (session_trace s2 [iend]) with (snd (step s2 iend) ++ []).
  rewrite app_nil_r.
  unfold engage_calls, disengage_calls in *.
  rewrite !count_app, !filter_app, E1, E2, E3, D1, D2, D3, N1, N2, N3, T2, T1.
  repeat split. exact S3.
Qed.

Lemma complete_run_witness :
  let s := boot (lit_setup 1000) in
  let i0 := pass HIGH 1000 1000 in
  let mid := [pass HIGH 990 2000; pass HIGH 900 3000] in
  let iend := pass HIGH 640 61000 in
  vehicle_state s = Idle /\
  vehicle_state (run s (i0 :: mid ++ [iend])) = Stopped /\
  disengage_calls (session_trace s (i0 :: mid ++ [iend])) = 1%nat /\
  ulong_sub (ms_end iend) (ms_start i0) = 60000.
Proof.
  intros s i0 mid iend.
  assert (H1 : vehicle_state s = Idle) by (vm_compute; reflexivity).
  assert (H2 : threshold (base_light s) <= light i0)
    by (vm_compute; discriminate).
  assert (H3 : Forall (keeps_running (base_light s)) mid).
  { repeat constructor; vm_compute; discriminate. }
  assert (H4 : light iend < threshold (base_light s))
    by (vm_compute; reflexivity).
  destruct (complete_run s i0 iend mid H1 eq_refl H2 H3 eq_refl H4)
    as (A & _ & B & _).
  refine (conj H1 (conj A (conj B _))). vm_compute. reflexivity.
Defined.

(** ** The switch *)

(** X15 (a switch that changes between the two reads).  When the vehicle
    is Idle and the switch reads off in the first test of [loop] but on in
    the second, neither rule fires: the pass leaves the vehicle Idle,
    actuates nothing and keeps [run_time]. *)
Theorem switch_glitch_when_idle (s : State) (i : CycleInput) :
  vehicle_state s = Idle -> sw_start i = LOW -> sw_abort i = HIGH ->
  vehicle_state (fst (step s i)) = Idle /\
  run_time (fst (step s i)) = run_time s /\
  filter is_actuation (snd (step s i)) = [].
Proof.
  intros H H1 H2. apply vehicle_state_idle in H. destruct H as [Hc Hr].
  open_step s i. unfold_cmds; split_tests; repeat split.
Qed.

Lemma switch_glitch_when_idle_witness :
  let s := boot (lit_setup 1000) in
  let i := mkCycleInput LOW HIGH 1000 10 10 10 10 in
  vehicle_state s = Idle /\
  vehicle_state (fst (step s i)) = Idle /\
  filter is_actuation (snd (step s i)) = [].
Proof.
  intros s i.
  assert (H : vehicle_state s = Idle) by (vm_compute; reflexivity).
  destruct (switch_glitch_when_idle s i H eq_refl eq_refl) as (A & _ & B).
  exact (conj H (conj A B)).
Defined.

(** X16 (an aborted run can be started again).  Unlike the stop at the
    endpoint, an abort does not latch: from Running, a pass with the
    switch off followed by a pass with the switch on and the light not
    below the threshold leaves the vehicle Running again, with one call of
    [detachAndWrite] in the first pass, one call of [attachAndWrite] in the
    second, and [run_time] set to the new start. *)
Theorem abort_then_restart (s : State) (i1 i2 : CycleInput) :
  vehicle_state s = Running -> sw_abort i1 = LOW ->
  sw_start i2 = HIGH -> threshold (base_light s) <= light i2 ->
  let r1 := step s i1 in
  let r2 := step (fst r1) i2 in
  vehicle_state (fst r1) = Idle /\
  disengage_calls (snd r1) = 1%nat /\ engage_calls (snd r1) = 0%nat /\
  vehicle_state (fst r2) = Running /\
  engage_calls (snd r2) = 1%nat /\ disengage_calls (snd r2) = 0%nat /\
  run_time (fst r2) = ms_start i2.
Proof.
  intros Hrun Hsw1 Hsw2 Hge r1 r2. apply Z.ltb_ge in Hge.
  destruct (step_abort_running s i1 Hrun Hsw1) as (S1 & _ & D1 & E1 & _).
  fold r1 in S1, D1, E1.
  assert (Hge' : (light i2 <? threshold (base_light (fst r1))) = false).
  { unfold r1. rewrite step_base_light. exact Hge. }
  destruct (step_idle_start (fst r1) i2 S1 Hsw2 Hge') as (S2 & T2 & E2 & D2).
  fold r2 in S2, T2, E2, D2.
  repeat split; assumption.
Qed.

Lemma abort_then_restart_witness :
  let s := run (boot (lit_setup 1000)) [pass HIGH 1000 100] in
  let i1 := pass LOW 1000 200 in
  let i2 := pass HIGH 1000 300 in
  vehicle_state s = Running /\
  vehicle_state (fst (step s i1)) = Idle /\
  vehicle_state (fst (step (fst (step s i1)) i2)) = Running /\
  run_time (fst (step (fst (step s i1)) i2)) = 300.
Proof.
  intros s i1 i2.
  assert (H1 : vehicle_state s = Running) by (vm_compute; reflexivity).
  assert (H2 : threshold (base_light s) <= light i2)
    by (vm_compute; discriminate).
  destruct (abort_then_restart s i1 i2 H1 eq_refl eq_refl H2)
    as (A & _ & _ & B & _ & _ & C).
  exact (conj H1 (conj A (conj B C))).
Defined.

(** ** The light-level message *)

Lemma step_light_report s i :
  count is_light_report (snd (step s i)) =
    (if update_rate <? ulong_sub (ms_check i) (update_time s)
     then 1%nat else 0%nat) /\
  update_time (fst (step s i)) =
    (if update_rate <? ulong_sub (ms_check i) (update_time s)
     then ms_update i else update_time s).
Proof.
  destruct s as [bl rt ut rc cc s1 s2 st ps].
  destruct i as [sw1 sw2 lv t1 t2 t3 t4].
  destruct rc, cc; unfold_cmds; split_tests; try discriminate;
    split; reflexivity.
Qed.

(** X17 (the light-level message is rate limited).  A pass whose clock is
    more than [update_rate] (5000 ms, in unsigned 32-bit arithmetic) past
    [update_time] hands one light-level message to [debug] and restarts
    the message timer; a following pass whose clock is at most
    [update_rate] past that restart hands none, whatever else the two
    passes do. *)
Theorem light_report_rate_limited (s : State) (i j : CycleInput) :
  update_rate < ulong_sub (ms_check i) (update_time s) ->
  ulong_sub (ms_check j) (ms_update i) <= update_rate ->
  count is_light_report (snd (step s i)) = 1%nat /\
  update_time (fst (step s i)) = ms_update i /\
  count is_light_report (snd (step (fst (step s i)) j)) = 0%nat /\
  update_time (fst (step (fst (step s i)) j)) = ms_update i.
Proof.
  intros H1 H2. apply Z.ltb_lt in H1. apply Z.ltb_ge in H2.
  destruct (step_light_report s i) as [C1 U1]. rewrite H1 in C1, U1.
  destruct (step_light_report (fst (step s i)) j) as [C2 U2].
  rewrite U1, H2 in C2, U2. repeat split; assumption.
Qed.

Lemma light_report_rate_limited_witness :
  let s := boot (lit_setup 1000) in
  let i := pass HIGH 1000 6000 in
  let j := pass HIGH 1000 11000 in
  count is_light_report (snd (step s i)) = 1%nat /\
  count is_light_report (snd (step (fst (step s i)) j)) = 0%nat.
Proof.
  intros s i j.
  assert (H1 : update_rate < ulong_sub (ms_check i) (update_time s))
    by (vm_compute; reflexivity).
  assert (H2 : ulong_sub (ms_check j) (ms_update i) <= update_rate)
    by (vm_compute; discriminate).
  destruct (light_report_rate_limited s i j H1 H2) as (A & _ & B & _).
  exact (conj A B).
Defined.

(** ** The two conversions *)

(** X18 (whole seconds are exact).  For every whole number of seconds
    [k] up to 16777, the last before a time in milliseconds leaves the
    exact range of a float, [getSeconds] of [1000 * k] milliseconds
    compares equal to [k]. *)
Theorem getSeconds_whole_seconds (k : Z) :
  0 <= k <= 16777 -> F32.eqb (getSeconds (1000 * k)) (F32.of_Z k) = true.
Proof.
  intros Hk.
  pose (P := fun k => F32.eqb (getSeconds (1000 * k)) (F32.of_Z k)).
  apply (forall_range P (Z.to_nat 16778)); [vm_compute; reflexivity|].
  rewrite Z2Nat.id; lia.
Qed.

Lemma getSeconds_whole_seconds_witness :
  0 <= 90 <= 16777 /\ F32.eqb (getSeconds (1000 * 90)) (F32.of_Z 90) = true.
Proof.
  split; [lia|]. apply getSeconds_whole_seconds. lia.
Defined.

Lemma analogToV_next v :
  0 <= v < 1023 ->
  float_scaled (analogToV v) < float_scaled (analogToV (v + 1)).
Proof.
  intros Hv.
  pose (P := fun v => float_scaled (analogToV v)
                      <? float_scaled (analogToV (v + 1))).
  assert (H : P v = true)
    by (apply (forall_range P 1023); [vm_compute; reflexivity|lia]).
  apply Z.ltb_lt. exact H.
Qed.

(** X19 ([analogToV] is strictly increasing).  On the converter's range
    0..1023 a larger raw sample always converts to a larger voltage: the
    value of the float [analogToV a] is below the value of [analogToV b]
    whenever [a < b], and the voltage of sample 0 is 0. *)
Theorem analogToV_increasing (a b : Z) :
  0 <= a -> a < b -> b <= 1023 ->
  float_scaled (analogToV 0) = 0 /\
  float_scaled (analogToV a) < float_scaled (analogToV b).
Proof.
  intros Ha Hab Hb. split; [vm_compute; reflexivity|].
  assert (G : forall n : nat, a + Z.of_nat (S n) <= 1023 ->
    float_scaled (analogToV a) < float_scaled (analogToV (a + Z.of_nat (S n)))).
  { induction n as [|n IH]; intros Hn.
    - change (Z.of_nat 1) with 1. apply analogToV_next. lia.
    - apply Z.lt_trans with (float_scaled (analogToV (a + Z.of_nat (S n)))).
      + apply IH. lia.
      + replace (a + Z.of_nat (S (S n))) with (a + Z.of_nat (S n) + 1) by lia.
        apply analogToV_next. lia. }
  replace b with (a + Z.of_nat (S (Z.to_nat (b - a - 1)))) by lia.
  apply G. lia.
Qed.

Lemma analogToV_increasing_witness :
  float_scaled (analogToV 359) < float_scaled (analogToV 360).
Proof.
  apply (analogToV_increasing 359 360); lia.
Defined.

(** ** Witnesses on the converter's range *)

Lemma rail_check_exact_witness :
  F32.ltb (analogToV 359) vbat_ok = true /\
  F32.ltb (analogToV 360) vbat_ok = false /\
  F32.ltb (analogToV 457) vpem_ok = true /\
  F32.ltb (analogToV 458) vpem_ok = false.
Proof.
  destruct (rail_check_exact 359 ltac:(lia)) as [A _].
  destruct (rail_check_exact 360 ltac:(lia)) as [B _].
  destruct (rail_check_exact 457 ltac:(lia)) as [_ C].
  destruct (rail_check_exact 458 ltac:(lia)) as [_ D].
  exact (conj A (conj B (conj C D))).
Defined.

Lemma threshold_floor_witness :
  0 <= 1001 <= 1023 /\ threshold 1001 = 800.
Proof.
  split; [lia|]. rewrite threshold_floor by lia. reflexivity.
Defined.
